(** * LodgeMate: business rules of the [core] application

    A shallow embedding of the rules in [core/models.py],
    [core/serializers.py], [core/views.py], [core/permissions.py] and
    [core/urls.py], and the properties the specification states about them.

    Conventions of the embedding.
    - Python integers are [Z].  A [DecimalField(decimal_places=2)] value is the
      [Z] number of hundredths, so [5.00] is [500]; [int * Decimal] is then
      the product in [Z].
    - A [DateField] value is its proleptic ordinal ([date.toordinal()]) in
      [Z]; the comparisons of [date] are the comparisons of ordinals.
      [date.today()] reads the clock: it is the argument [today].
    - [CharField] values, also those with [choices], are strings, compared
      the way the code compares them.
    - The database is the record [DB] of tables, each a finite map from
      primary key to row.  Every [save()] commits at once (no view opens a
      transaction), so a view that raises after a [save()] leaves that
      write in the store: computations are in the monad [M], which keeps
      the store next to the raised exception.
    - A model instance held by running code is an ordinary value; where two
      names of the code denote one object, the embedding passes the one
      value along.
    - Of the generic views only what the rules depend on is kept: the
      permission check, the field checks of the declared field types, the
      serializer hooks [validate_<field>], [validate], [create], and the
      generic create and update of a model serializer.  A model serializer
      builds its fields from [Meta.fields] before it validates anything,
      and fails on a name its model does not have.
    - The settings module is not part of [core].  The store is the SQLite
      database a new project is configured with: it refuses a negative
      value in a [PositiveIntegerField] column, a second row with the
      reservation of another in the [OneToOneField] column of [Payment],
      and a related key that is not stored, each with [IntegrityError].
    - Strings are ASCII text. *)

From Stdlib Require Import ZArith Ascii String List Lia.
From stdpp Require Import gmap strings list fin_maps pretty.

Local Open Scope string_scope.
Local Open Scope Z_scope.

(** ** Exceptions, results, responses *)

(** The exceptions the rules raise, and those of the generic views the
    rules run under.  A [ValidationError] carries its errors by key: the
    name of the field, or [non_field_errors]. *)
Inductive exn : Type :=
| ValidationError (errors : list (string * string))
| ValueError (msg : string)
| TypeError (msg : string)
| AttributeError (msg : string)
| IntegrityError (msg : string)
| ImportError (msg : string)
| ImproperlyConfigured (msg : string)
| Http404
| NotAuthenticated
| PermissionDenied.

(** [raise serializers.ValidationError(msg)] inside [validate] is reported
    under this key. *)
Definition non_field_errors : string := "non_field_errors".

Inductive result (A : Type) : Type :=
| Ok (a : A)
| Raise (e : exn).
Arguments Ok {A} a.
Arguments Raise {A} e.

Record Response : Type := mkResponse {
  data : list (string * string);
  status_code : Z
}.

Definition HTTP_200_OK : Z := 200.
Definition HTTP_400_BAD_REQUEST : Z := 400.

(** ** Data model ([core/models.py]) *)

Definition pk : Type := positive.
Definition date : Type := Z.

(** A model instance: the primary key of its row and its attributes. *)
Record instance (A : Type) : Type := mkInstance {
  id : pk;
  attrs : A
}.
Arguments mkInstance {A} id attrs.
Arguments id {A} i.
Arguments attrs {A} i.

Record CustomUser : Type := mkUser {
  username : string;
  role : string;
  is_staff : bool
}.

Definition ROLE_CHOICES : list string := ["admin"; "manager"; "staff"].

Record Room : Type := mkRoom {
  number : string;
  capacity : Z;
  price_per_night : Z
}.

Record Reservation : Type := mkReservation {
  guest : pk;
  room : pk;
  check_in_date : date;
  check_out_date : date;
  status : string
}.

Definition STATUS_CHOICES : list string :=
  ["pending"; "confirmed"; "checked_in"; "checked_out"].

Record InventoryItem : Type := mkInventoryItem {
  name : string;
  quantity : Z;
  price : Z
}.

(** A [Transaction] in memory: [item] is the related object itself; in the
    stored row it is that object's key.  The column [date] is set by the
    store on insert and no rule reads it. *)
Record Transaction : Type := mkTransaction {
  item : instance InventoryItem;
  quantity_sold : Z;
  total_price : Z
}.

Record TransactionRow : Type := mkTransactionRow {
  row_item_id : pk;
  row_quantity_sold : Z;
  row_total_price : Z
}.

Record Payment : Type := mkPayment {
  reservation : pk;
  amount : Z;
  payment_method : string;
  payment_status : string
}.

Definition PAYMENT_METHOD_CHOICES : list string := ["cash"; "mobile"; "card"].

Record DB : Type := mkDB {
  rooms : gmap pk Room;
  reservations : gmap pk Reservation;
  inventory_items : gmap pk InventoryItem;
  transactions : gmap pk TransactionRow;
  payments : gmap pk Payment
}.

Definition set_reservations (f : gmap pk Reservation -> gmap pk Reservation)
    (db : DB) : DB :=
  mkDB (rooms db) (f (reservations db)) (inventory_items db)
       (transactions db) (payments db).

Definition set_inventory_items
    (f : gmap pk InventoryItem -> gmap pk InventoryItem) (db : DB) : DB :=
  mkDB (rooms db) (reservations db) (f (inventory_items db))
       (transactions db) (payments db).

Definition set_transactions
    (f : gmap pk TransactionRow -> gmap pk TransactionRow) (db : DB) : DB :=
  mkDB (rooms db) (reservations db) (inventory_items db)
       (f (transactions db)) (payments db).

Definition set_payments (f : gmap pk Payment -> gmap pk Payment)
    (db : DB) : DB :=
  mkDB (rooms db) (reservations db) (inventory_items db)
       (transactions db) (f (payments db)).

(** ** The store monad *)

(** A computation over the store: its result or the exception it raised,
    and the store as it is afterwards in both cases. *)
Definition M (A : Type) : Type := DB -> result A * DB.

Definition ret {A} (a : A) : M A := fun db => (Ok a, db).
Definition raise {A} (e : exn) : M A := fun db => (Raise e, db).
Definition bind {A B} (m : M A) (k : A -> M B) : M B :=
  fun db =>
    match m db with
    | (Ok a, db') => k a db'
    | (Raise e, db') => (Raise e, db')
    end.
Definition modify (f : DB -> DB) : M unit := fun db => (Ok tt, f db).
Definition gets {A} (f : DB -> A) : M A := fun db => (Ok (f db), db).
Definition lift {A} (r : result A) : M A := fun db => (r, db).

Notation "'let*' x := m 'in' k" := (bind m (fun x => k))
  (at level 10, x name, m at level 200, k at level 200).
Notation "m >>> k" := (bind m (fun _ => k))
  (at level 100, right associativity).

(** The key the store gives a new row. *)
Definition new_pk {A} (table : gmap pk A) : pk := fresh (dom table).

(** [Model.objects.all()]: the rows of a table. *)
Definition objects {A} (table : gmap pk A) : list A :=
  (map_to_list table).*2.

(** ** Field checks of the declared field types *)

(** A field of a request once checked: its value, or the errors reported
    under the field's name, one for each validator of the field that
    refused the value.  [raise serializers.ValidationError(msg)] in a
    [validate_<field>] hook is the field's error. *)
Inductive field (A : Type) : Type :=
| Valid (a : A)
| Invalid (details : list string).
Arguments Valid {A} a.
Arguments Invalid {A} details.

Definition errors_of {A} (key : string) (f : field A)
    : list (string * string) :=
  match f with
  | Valid _ => []
  | Invalid details => (fun detail => (key, detail)) <$> details
  end.

(** A field of the request body: absent keys are refused unless the update
    is partial, present ones go through the field's check. *)
Definition run_field {A B} (partial : bool) (check : A -> field B)
    (v : option A) : field (option B) :=
  match v with
  | Some a =>
    match check a with
    | Valid a' => Valid (Some a')
    | Invalid details => Invalid details
    end
  | None =>
    if partial then Valid None else Invalid ["This field is required."]
  end.

(** The hook [validate_<field>] of a serializer class, when it defines
    one, runs on a value that passed the field's own check. *)
Definition with_hook {A B} (check : A -> field B)
    (hook : option (B -> field B)) (a : A) : field B :=
  match check a, hook with
  | Valid a', Some h => h a'
  | r, _ => r
  end.

(** The greatest value of a [PositiveIntegerField] column,
    [connection.ops.integer_field_range]: with SQLite, that of a signed
    integer of 64 bits. *)
Definition PositiveIntegerField_max_value : Z := 9223372036854775807.

(** An [IntegerField(min_value, max_value)] of a serializer. *)
Definition IntegerField (min_value max_value : Z) (v : Z) : field Z :=
  if max_value <? v then
    Invalid ["Ensure this value is less than or equal to "
               +:+ pretty max_value +:+ "."]
  else if v <? min_value then
    Invalid ["Ensure this value is greater than or equal to "
               +:+ pretty min_value +:+ "."]
  else Valid v.

(** The serializer field of a [PositiveIntegerField] column: an integer
    field with the bounds of the column. *)
Definition PositiveIntegerField : Z -> field Z :=
  IntegerField 0 PositiveIntegerField_max_value.

(** The digit check of a [DecimalField(max_digits, decimal_places=2)] on a
    value counted in hundredths. *)
Definition DecimalField (max_digits : Z) (v : Z) : field Z :=
  if Z.abs v <? 10 ^ max_digits then Valid v
  else Invalid ["Ensure that there are no more digits than allowed."].

(** [str.isspace] on a character of ASCII text: the codes 9 to 13 and
    28 to 32. *)
Definition isspace (c : ascii) : bool :=
  let n := nat_of_ascii c in
  ((9 <=? n) && (n <=? 13) || (28 <=? n) && (n <=? 32))%nat.

(** [str.strip()]: the text without the blanks at either end. *)
Fixpoint lstrip (s : string) : string :=
  match s with
  | EmptyString => EmptyString
  | String c rest => if isspace c then lstrip rest else s
  end.

Fixpoint rstrip (s : string) : string :=
  match s with
  | EmptyString => EmptyString
  | String c rest =>
    match rstrip rest with
    | EmptyString => if isspace c then EmptyString else String c EmptyString
    | rest' => String c rest'
    end
  end.

Definition strip (s : string) : string := rstrip (lstrip s).

(** Whether the text holds the character of code 0. *)
Fixpoint has_null_character (s : string) : bool :=
  match s with
  | EmptyString => false
  | String c rest => (nat_of_ascii c =? 0)%nat || has_null_character rest
  end.

(** The serializer field of a [CharField(max_length)] column that may not
    be blank.  The field trims the value ([trim_whitespace]), refuses one
    that is blank then, and runs its validators, the length and the null
    character, on the trimmed value, which is the value it hands on. *)
Definition CharField (max_length : nat) (v : string) : field string :=
  let value := strip v in
  if String.eqb value "" then Invalid ["This field may not be blank."]
  else
    let too_long :=
      if (String.length value <=? max_length)%nat then []
      else ["Ensure this field has no more than " +:+ pretty max_length
              +:+ " characters."] in
    let null_character :=
      if has_null_character value then ["Null characters are not allowed."]
      else [] in
    match (too_long ++ null_character)%list with
    | [] => Valid value
    | details => Invalid details
    end.

(** A [ChoiceField] over the declared choices. *)
Definition ChoiceField (choices : list string) (v : string) : field string :=
  if existsb (String.eqb v) choices then Valid v
  else Invalid ["Not a valid choice."].

(** A [PrimaryKeyRelatedField] over a table: the key is resolved to the
    object of that row. *)
Definition PrimaryKeyRelatedField {A} (table : gmap pk A) (k : pk)
    : field (instance A) :=
  match table !! k with
  | Some row => Valid (mkInstance k row)
  | None => Invalid ["Invalid pk - object does not exist."]
  end.

Definition DateField (v : date) : field date := Valid v.

(** ** Permissions ([core/permissions.py]) *)

Inductive RequestUser : Type :=
| AnonymousUser
| Authenticated (u : CustomUser).

Definition is_authenticated (user : RequestUser) : bool :=
  match user with
  | AnonymousUser => false
  | Authenticated _ => true
  end.

(** [request.user.role]: the anonymous user has no such attribute. *)
Definition user_role (user : RequestUser) : result string :=
  match user with
  | AnonymousUser =>
    Raise (AttributeError "'AnonymousUser' object has no attribute 'role'")
  | Authenticated u => Ok (role u)
  end.

Inductive Permission : Type :=
| AllowAny
| IsAuthenticated
| IsAdmin
| IsStaff
| IsGuest.

Definition IsAdmin_has_permission (user : RequestUser) : result bool :=
  match user_role user with
  | Ok r => Ok (String.eqb r "admin")
  | Raise e => Raise e
  end.

Definition IsStaff_has_permission (user : RequestUser) : result bool :=
  match user_role user with
  | Ok r => Ok (existsb (String.eqb r) ["admin"; "staff"])
  | Raise e => Raise e
  end.

Definition IsGuest_has_permission (user : RequestUser) : result bool :=
  match user_role user with
  | Ok r => Ok (String.eqb r "guest")
  | Raise e => Raise e
  end.

Definition has_permission (p : Permission) (user : RequestUser)
    : result bool :=
  match p with
  | AllowAny => Ok true
  | IsAuthenticated => Ok (is_authenticated user)
  | IsAdmin => IsAdmin_has_permission user
  | IsStaff => IsStaff_has_permission user
  | IsGuest => IsGuest_has_permission user
  end.

(** The check a view runs before its handler: every permission class in
    turn, the first refusal ends the request. *)
Fixpoint check_permissions (classes : list Permission) (user : RequestUser)
    : result unit :=
  match classes with
  | [] => Ok tt
  | p :: rest =>
    match has_permission p user with
    | Ok true => check_permissions rest user
    | Ok false =>
      Raise (if is_authenticated user then PermissionDenied
             else NotAuthenticated)
    | Raise e => Raise e
    end
  end.

(** ** Routes ([core/urls.py]) and the view sets behind them *)

Inductive ViewSet : Type :=
| ReservationViewSet
| InventoryItemViewSet
| TransactionViewSet
| UserViewSet
| ReportViewSet
| PaymentViewSet.

Definition router : list (string * ViewSet) :=
  [("reservations", ReservationViewSet);
   ("inventory", InventoryItemViewSet);
   ("transactions", TransactionViewSet);
   ("users", UserViewSet);
   ("reports", ReportViewSet);
   ("payments", PaymentViewSet)].

(** The attribute [permission_classes] of the routed classes: those of
    [core/views.py], and [UserViewSet] of [core/api.py].  [None] where the
    class does not set it. *)
Definition permission_classes (v : ViewSet) : option (list Permission) :=
  match v with
  | ReservationViewSet => Some [IsAuthenticated]
  | InventoryItemViewSet => None
  | TransactionViewSet => Some [IsAuthenticated]
  | UserViewSet => Some [AllowAny]
  | ReportViewSet => None
  | PaymentViewSet => Some [IsAuthenticated]
  end.

(** A class that does not set the attribute gets the project's
    [DEFAULT_PERMISSION_CLASSES] (the settings module is not part of
    [core]). *)
Definition get_permissions (DEFAULT_PERMISSION_CLASSES : list Permission)
    (v : ViewSet) : list Permission :=
  match permission_classes v with
  | Some classes => classes
  | None => DEFAULT_PERMISSION_CLASSES
  end.

Inductive Action : Type :=
| act_list | act_create | act_retrieve
| act_update | act_partial_update | act_destroy
| act_sign_up | act_sign_in
| act_check_in | act_check_out | act_my_reservations
| act_reservation_report | act_revenue_report
| act_transaction_report | act_reservation_details.

Definition ModelViewSet_actions : list Action :=
  [act_list; act_create; act_retrieve;
   act_update; act_partial_update; act_destroy].

(** The actions each routed class answers: those of [ModelViewSet] and the
    methods marked [@action]. *)
Definition actions (v : ViewSet) : list Action :=
  match v with
  | ReservationViewSet =>
    ModelViewSet_actions ++ [act_check_in; act_check_out; act_my_reservations]
  | UserViewSet => ModelViewSet_actions ++ [act_sign_up; act_sign_in]
  | ReportViewSet =>
    [act_reservation_report; act_revenue_report;
     act_transaction_report; act_reservation_details]
  | InventoryItemViewSet | TransactionViewSet | PaymentViewSet =>
    ModelViewSet_actions
  end.

(** No action overrides the permissions of its class, so the check before
    the handler of [(v, a)] is that of [v]. *)
Definition initial (DEFAULT_PERMISSION_CLASSES : list Permission)
    (user : RequestUser) (v : ViewSet) (a : Action) : result unit :=
  check_permissions (get_permissions DEFAULT_PERMISSION_CLASSES v) user.

(** ** Point of sale: [InventoryItem] and [Transaction] *)

(** [item.save()]: the row of the instance is written, unless the store
    refuses its quantity. *)
Definition InventoryItem_save (it : instance InventoryItem) : M unit :=
  if quantity (attrs it) <? 0 then
    raise (IntegrityError "CHECK constraint failed: quantity")
  else modify (set_inventory_items <[id it := attrs it]>).

(** [item.quantity = q] on the object [it]. *)
Definition with_quantity (it : instance InventoryItem) (q : Z)
    : instance InventoryItem :=
  mkInstance (id it)
    (mkInventoryItem (name (attrs it)) q (price (attrs it))).

(** [super().save()] of a new [Transaction]: its row is inserted, unless
    the store refuses its quantity. *)
Definition Transaction_super_save (self : Transaction) : M unit :=
  if quantity_sold self <? 0 then
    raise (IntegrityError "CHECK constraint failed: quantity_sold")
  else
    modify (set_transactions (fun t =>
      <[new_pk t := mkTransactionRow (id (item self)) (quantity_sold self)
                                     (total_price self)]> t)).

(** [Transaction.save] ([models.py], 149-155).  [self.item] is mutated and
    saved, [self.total_price] is recomputed, then the row is inserted. *)
Definition Transaction_save (self : Transaction) : M Transaction :=
  if quantity (attrs (item self)) <? quantity_sold self then
    raise (ValueError "Not enough stock available for this transaction.")
  else
    let item' :=
      with_quantity (item self)
        (quantity (attrs (item self)) - quantity_sold self) in
    InventoryItem_save item' >>>
    let self' :=
      mkTransaction item' (quantity_sold self)
                    (quantity_sold self * price (attrs item')) in
    Transaction_super_save self' >>>
    ret self'.

(** [Transaction.objects.create]: the manager builds the instance from the
    keyword arguments and calls its [save]. *)
Definition Transaction_objects_create (it : instance InventoryItem)
    (qs total : Z) : M Transaction :=
  Transaction_save (mkTransaction it qs total).

(** The body of a transaction request: each key present or not. *)
Record TransactionData : Type := mkTransactionData {
  d_item : option pk;
  d_quantity_sold : option Z
}.

(** The attributes [validate] and [create] receive: [item] is the
    [InventoryItem] object the key was resolved to. *)
Record TransactionValidated : Type := mkTransactionValidated {
  v_item : instance InventoryItem;
  v_quantity_sold : Z
}.

(** Field checks of [TransactionSerializer]: [item] is a
    [PrimaryKeyRelatedField] over all inventory items, [quantity_sold] the
    field of the model's [PositiveIntegerField]; both are required,
    [total_price] and [date] are read-only. *)
Definition TransactionSerializer_fields (d : TransactionData)
    : M TransactionValidated :=
  let* items := gets inventory_items in
  let f_item := run_field false (PrimaryKeyRelatedField items) (d_item d) in
  let f_quantity_sold :=
    run_field false PositiveIntegerField (d_quantity_sold d) in
  match f_item, f_quantity_sold with
  | Valid (Some it), Valid (Some qs) => ret (mkTransactionValidated it qs)
  | _, _ =>
    raise (ValidationError (errors_of "item" f_item
                              ++ errors_of "quantity_sold" f_quantity_sold))
  end.

(** [TransactionSerializer.validate] ([serializers.py], 89-95). *)
Definition TransactionSerializer_validate (d : TransactionValidated)
    : result TransactionValidated :=
  if quantity (attrs (v_item d)) <? v_quantity_sold d then
    Raise (ValidationError
             [(non_field_errors,
               "Only " +:+ pretty (quantity (attrs (v_item d)))
                 +:+ " items are available in stock.")])
  else Ok d.

(** [TransactionSerializer.create] ([serializers.py], 97-113).  The item
    it decrements and saves is the object it then hands to
    [Transaction.objects.create]. *)
Definition TransactionSerializer_create (d : TransactionValidated)
    : M Transaction :=
  let item0 := v_item d in
  let quantity_sold := v_quantity_sold d in
  let item1 :=
    with_quantity item0 (quantity (attrs item0) - quantity_sold) in
  InventoryItem_save item1 >>>
  let total_price := quantity_sold * price (attrs item1) in
  Transaction_objects_create item1 quantity_sold total_price.

(** [POST /api/transactions/] ([views.py], 162-175): the permission check,
    the serializer's validation, then [perform_create], whose
    [serializer.save(user=...)] ends in [create]; [create] reads [item],
    [quantity_sold] and [date] of the validated data and nothing else. *)
Definition TransactionViewSet_create (user : RequestUser)
    (d : TransactionData) : M Transaction :=
  lift (check_permissions [IsAuthenticated] user) >>>
  let* fields := TransactionSerializer_fields d in
  let* validated := lift (TransactionSerializer_validate fields) in
  TransactionSerializer_create validated.

(** ** Inventory: [InventoryItem.clean], [InventoryItemSerializer] and
    [InventoryItemViewSet] *)

(** [InventoryItem.clean] ([models.py], 133-137).  Neither [save] nor a
    serializer calls it. *)
Definition InventoryItem_clean (self : InventoryItem) : result unit :=
  if quantity self <? 0 then Raise (ValueError "Quantity cannot be negative.")
  else if price self <? 0 then Raise (ValueError "Price cannot be negative.")
  else Ok tt.

(** The body of an inventory request, and the attributes that passed the
    field checks: each key present or not. *)
Record InventoryItemData : Type := mkInventoryItemData {
  d_name : option string;
  d_quantity : option Z;
  d_price : option Z
}.

(** What a class statement for an inventory serializer defines besides its
    [Meta]: the hooks, each present or not. *)
Record InventoryItemSerializerClass : Type := mkInventoryItemSerializerClass {
  validate_quantity : option (Z -> field Z);
  validate_price : option (Z -> field Z)
}.

(** [validate_quantity] and [validate_price] ([serializers.py], 71-79). *)
Definition InventoryItemSerializer_validate_quantity (value : Z) : field Z :=
  if value <? 0 then Invalid ["Quantity cannot be negative."]
  else Valid value.

Definition InventoryItemSerializer_validate_price (value : Z) : field Z :=
  if value <? 0 then Invalid ["Price cannot be negative."] else Valid value.

(** [class InventoryItemSerializer] at [serializers.py], 65-79. *)
Definition InventoryItemSerializer_65 : InventoryItemSerializerClass :=
  mkInventoryItemSerializerClass
    (Some InventoryItemSerializer_validate_quantity)
    (Some InventoryItemSerializer_validate_price).

(** [class InventoryItemSerializer] at [serializers.py], 166-169:
    [fields = '__all__'] and no hook. *)
Definition InventoryItemSerializer_166 : InventoryItemSerializerClass :=
  mkInventoryItemSerializerClass None None.

(** The class statements of [serializers.py] that bind
    [InventoryItemSerializer], in the order the module runs them. *)
Definition serializers_py : list (string * InventoryItemSerializerClass) :=
  [("InventoryItemSerializer", InventoryItemSerializer_65);
   ("InventoryItemSerializer", InventoryItemSerializer_166)].

(** The namespace of a module once it has run: each statement binds its
    name, replacing what the name was bound to. *)
Definition module_namespace {A} (statements : list (string * A))
    : gmap string A :=
  foldl (fun ns b => <[b.1 := b.2]> ns) ∅ statements.

(** [from .serializers import InventoryItemSerializer] in [views.py], and
    [serializer_class = InventoryItemSerializer]. *)
Definition InventoryItemViewSet_serializer_class
    : option InventoryItemSerializerClass :=
  module_namespace serializers_py !! "InventoryItemSerializer".

(** Field checks of an inventory serializer class: the model's
    [CharField(max_length=255)], [PositiveIntegerField] and
    [DecimalField(max_digits=10, decimal_places=2)], each followed by the
    hook of the class for that field. *)
Definition InventoryItemSerializer_fields (cls : InventoryItemSerializerClass)
    (partial : bool) (d : InventoryItemData) : result InventoryItemData :=
  let f_name := run_field partial (CharField 255) (d_name d) in
  let f_quantity :=
    run_field partial (with_hook PositiveIntegerField (validate_quantity cls))
              (d_quantity d) in
  let f_price :=
    run_field partial (with_hook (DecimalField 10) (validate_price cls))
              (d_price d) in
  match f_name, f_quantity, f_price with
  | Valid n, Valid q, Valid p => Ok (mkInventoryItemData n q p)
  | _, _, _ =>
    Raise (ValidationError (errors_of "name" f_name
                              ++ errors_of "quantity" f_quantity
                              ++ errors_of "price" f_price))
  end.

(** [InventoryItem.objects.create] on validated attributes: a new row. *)
Definition InventoryItem_objects_create (vd : InventoryItemData)
    : M (instance InventoryItem) :=
  match d_name vd, d_quantity vd, d_price vd with
  | Some n, Some q, Some p =>
    let* items := gets inventory_items in
    let it := mkInstance (new_pk items) (mkInventoryItem n q p) in
    InventoryItem_save it >>> ret it
  | _, _, _ => raise (IntegrityError "NOT NULL constraint failed")
  end.

(** The object of a detail route, or 404. *)
Definition get_object {A} (table : DB -> gmap pk A) (k : pk)
    : M (instance A) :=
  let* t := gets table in
  match t !! k with
  | Some row => ret (mkInstance k row)
  | None => raise Http404
  end.

Definition with_serializer_class {A}
    (k : InventoryItemSerializerClass -> M A) : M A :=
  match InventoryItemViewSet_serializer_class with
  | Some cls => k cls
  | None => raise (ImportError "cannot import name 'InventoryItemSerializer'")
  end.

(** [POST /api/inventory/] ([views.py], 193-195). *)
Definition InventoryItemViewSet_create
    (DEFAULT_PERMISSION_CLASSES : list Permission) (user : RequestUser)
    (d : InventoryItemData) : M (instance InventoryItem) :=
  lift (initial DEFAULT_PERMISSION_CLASSES user
                InventoryItemViewSet act_create) >>>
  with_serializer_class (fun cls =>
    let* validated := lift (InventoryItemSerializer_fields cls false d) in
    InventoryItem_objects_create validated).

(** [PUT] and [PATCH /api/inventory/<pk>/]: the attributes the request
    carries replace those of the object, which is saved. *)
Definition InventoryItemViewSet_update
    (DEFAULT_PERMISSION_CLASSES : list Permission) (user : RequestUser)
    (partial : bool) (k : pk) (d : InventoryItemData)
    : M (instance InventoryItem) :=
  lift (initial DEFAULT_PERMISSION_CLASSES user InventoryItemViewSet
                (if partial then act_partial_update else act_update)) >>>
  let* it := get_object inventory_items k in
  with_serializer_class (fun cls =>
    let* validated := lift (InventoryItemSerializer_fields cls partial d) in
    let it' :=
      mkInstance (id it)
        (mkInventoryItem (default (name (attrs it)) (d_name validated))
                         (default (quantity (attrs it)) (d_quantity validated))
                         (default (price (attrs it)) (d_price validated))) in
    InventoryItem_save it' >>> ret it').

(** ** Reservations *)

Definition Reservation_save (r : instance Reservation) : M unit :=
  modify (set_reservations <[id r := attrs r]>).

(** [reservation.status = s] on the object [r]. *)
Definition with_status (r : instance Reservation) (s : string)
    : instance Reservation :=
  mkInstance (id r)
    (mkReservation (guest (attrs r)) (room (attrs r))
                   (check_in_date (attrs r)) (check_out_date (attrs r)) s).

(** [Reservation.clean] ([models.py], 106-110). *)
Definition Reservation_clean (today : date) (self : Reservation)
    : result unit :=
  if check_in_date self <? today then
    Raise (ValueError "Check-in date cannot be in the past.")
  else if check_out_date self <=? check_in_date self then
    Raise (ValueError "Check-out date must be after check-in date.")
  else Ok tt.

(** [Reservation.check_in] and [Reservation.check_out] ([models.py],
    115-123): from another status the method does nothing. *)
Definition Reservation_check_in (self : instance Reservation)
    : M (instance Reservation) :=
  if String.eqb (status (attrs self)) "confirmed" then
    let self' := with_status self "checked_in" in
    Reservation_save self' >>> ret self'
  else ret self.

Definition Reservation_check_out (self : instance Reservation)
    : M (instance Reservation) :=
  if String.eqb (status (attrs self)) "checked_in" then
    let self' := with_status self "checked_out" in
    Reservation_save self' >>> ret self'
  else ret self.

(** The body of a reservation request, and the dictionary [validate]
    receives: each key present or not ([data.get] gives [None] for an
    absent one). *)
Record ReservationData : Type := mkReservationData {
  d_room : option pk;
  d_check_in_date : option date;
  d_check_out_date : option date;
  d_status : option string
}.

(** The names looked up on [Reservation] when a serializer builds a field
    for it: its columns with [id], and what the class statement defines.
    (What every model inherits has other names than those that matter
    below.) *)
Definition Reservation_attributes : list string :=
  ["id"; "guest"; "room"; "check_in_date"; "check_out_date"; "status";
   "STATUS_CHOICES"; "is_active"; "clean"; "check_in"; "check_out"].

(** [Meta.fields] of [ReservationSerializer] ([serializers.py], 118-120). *)
Definition ReservationSerializer_Meta_fields : list string :=
  ["id"; "guest_name"; "room"; "check_in_date"; "check_out_date"; "status";
   "total_price"].

(** A model serializer builds one field for each name of [Meta.fields],
    in order; a name that is neither a column nor an attribute of the
    model ends it. *)
Definition not_valid_for_model (field model : string) : exn :=
  ImproperlyConfigured
    ("Field name `" +:+ field +:+ "` is not valid for model `"
       +:+ model +:+ "`.").

Fixpoint build_fields (model : string) (attributes fields : list string)
    : result unit :=
  match fields with
  | [] => Ok tt
  | f :: rest =>
    if existsb (String.eqb f) attributes then
      build_fields model attributes rest
    else Raise (not_valid_for_model f model)
  end.

Definition ReservationSerializer_get_fields : result unit :=
  build_fields "Reservation" Reservation_attributes
               ReservationSerializer_Meta_fields.

(** [is_valid] of [ReservationSerializer] up to the field checks: the
    fields are built first; then [room] a related key, the two dates, and
    [status], a choice with a default and so never required. *)
Definition ReservationSerializer_fields (partial : bool) (d : ReservationData)
    : M ReservationData :=
  lift ReservationSerializer_get_fields >>>
  let* all_rooms := gets rooms in
  let f_room :=
    run_field partial (PrimaryKeyRelatedField all_rooms) (d_room d) in
  let f_check_in := run_field partial DateField (d_check_in_date d) in
  let f_check_out := run_field partial DateField (d_check_out_date d) in
  let f_status := run_field true (ChoiceField STATUS_CHOICES) (d_status d) in
  match f_room, f_check_in, f_check_out, f_status with
  | Valid r, Valid i, Valid o, Valid s =>
    ret (mkReservationData (id <$> r) i o s)
  | _, _, _, _ =>
    raise (ValidationError (errors_of "room" f_room
                              ++ errors_of "check_in_date" f_check_in
                              ++ errors_of "check_out_date" f_check_out
                              ++ errors_of "status" f_status))
  end.

(** The message of a comparison that one of its operands, [None], does
    not support. *)
Definition not_supported {A B} (op : string) (a : option A) (b : option B)
    : string :=
  let type_of {C} (x : option C) :=
    match x with Some _ => "'datetime.date'" | None => "'NoneType'" end in
  "'" +:+ op +:+ "' not supported between instances of "
    +:+ type_of a +:+ " and " +:+ type_of b.

(** [a < b] and [a <= b] on dates either of which may be [None]. *)
Definition date_lt (a b : option date) : result bool :=
  match a, b with
  | Some x, Some y => Ok (x <? y)
  | _, _ => Raise (TypeError (not_supported "<" a b))
  end.

Definition date_le (a b : option date) : result bool :=
  match a, b with
  | Some x, Some y => Ok (x <=? y)
  | _, _ => Raise (TypeError (not_supported "<=" a b))
  end.

(** [ReservationSerializer.validate] ([serializers.py], 122-132). *)
Definition ReservationSerializer_validate (today : date)
    (data : ReservationData) : result ReservationData :=
  let check_in_date := d_check_in_date data in
  let check_out_date := d_check_out_date data in
  match date_lt check_in_date (Some today) with
  | Raise e => Raise e
  | Ok true =>
    Raise (ValidationError
             [(non_field_errors, "Check-in date cannot be in the past.")])
  | Ok false =>
    match date_le check_out_date check_in_date with
    | Raise e => Raise e
    | Ok true =>
      Raise (ValidationError
               [(non_field_errors,
                 "Check-out date must be after check-in date.")])
    | Ok false => Ok data
    end
  end.

(** [Reservation.objects.create] on validated attributes.  The column
    [guest] takes no null and [status] defaults to ['pending']. *)
Definition Reservation_objects_create (guest : option pk)
    (vd : ReservationData) : M (instance Reservation) :=
  match guest, d_room vd, d_check_in_date vd, d_check_out_date vd with
  | Some g, Some r, Some i, Some o =>
    let* table := gets reservations in
    let self :=
      mkInstance (new_pk table)
        (mkReservation g r i o (default "pending" (d_status vd))) in
    Reservation_save self >>> ret self
  | _, _, _, _ => raise (IntegrityError "NOT NULL constraint failed")
  end.

(** [POST /api/reservations/]: [is_valid], which builds the fields of the
    serializer first, then the generic create.  [ReservationSerializer]
    declares no field that carries [guest] and [ReservationViewSet] no
    [perform_create] that supplies it. *)
Definition ReservationViewSet_create (today : date) (d : ReservationData)
    : M (instance Reservation) :=
  let* fields := ReservationSerializer_fields false d in
  let* validated := lift (ReservationSerializer_validate today fields) in
  Reservation_objects_create None validated.

(** [PUT] and [PATCH /api/reservations/<pk>/]: the object, [is_valid],
    which builds the fields of the serializer first, then the generic
    update: each validated attribute is set on the object, which is
    saved. *)
Definition ReservationViewSet_update (today : date) (partial : bool)
    (k : pk) (d : ReservationData) : M (instance Reservation) :=
  let* self := get_object reservations k in
  let* fields := ReservationSerializer_fields partial d in
  let* validated := lift (ReservationSerializer_validate today fields) in
  let self' :=
    mkInstance (id self)
      (mkReservation
         (guest (attrs self))
         (default (room (attrs self)) (d_room validated))
         (default (check_in_date (attrs self)) (d_check_in_date validated))
         (default (check_out_date (attrs self)) (d_check_out_date validated))
         (default (status (attrs self)) (d_status validated))) in
  Reservation_save self' >>> ret self'.

(** [ReservationViewSet.check_in] ([views.py], 66-73). *)
Definition ReservationViewSet_check_in (k : pk) : M Response :=
  let* reservation := get_object reservations k in
  if negb (String.eqb (status (attrs reservation)) "confirmed") then
    ret (mkResponse
           [("error", "Reservation must be confirmed before check-in")]
           HTTP_400_BAD_REQUEST)
  else
    Reservation_save (with_status reservation "checked_in") >>>
    ret (mkResponse [("status", "checked in")] HTTP_200_OK).

(** [ReservationViewSet.check_out] ([views.py], 75-82). *)
Definition ReservationViewSet_check_out (k : pk) : M Response :=
  let* reservation := get_object reservations k in
  if negb (String.eqb (status (attrs reservation)) "checked_in") then
    ret (mkResponse
           [("error", "Reservation must be checked in before check-out")]
           HTTP_400_BAD_REQUEST)
  else
    Reservation_save (with_status reservation "checked_out") >>>
    ret (mkResponse [("status", "checked out")] HTTP_200_OK).

(** The requests of the reservation routes that write. *)
Inductive ReservationRequest : Type :=
| POST_reservations (d : ReservationData)
| PUT_reservation (k : pk) (d : ReservationData)
| PATCH_reservation (k : pk) (d : ReservationData)
| POST_check_in (k : pk)
| POST_check_out (k : pk).

(** A request to [ReservationViewSet] ([views.py], 61-64): the permission
    check of the class, then the handler. *)
Definition ReservationViewSet_dispatch (today : date) (user : RequestUser)
    (req : ReservationRequest) : M unit :=
  lift (check_permissions [IsAuthenticated] user) >>>
  match req with
  | POST_reservations d => ReservationViewSet_create today d >>> ret tt
  | PUT_reservation k d => ReservationViewSet_update today false k d >>> ret tt
  | PATCH_reservation k d => ReservationViewSet_update today true k d >>> ret tt
  | POST_check_in k => ReservationViewSet_check_in k >>> ret tt
  | POST_check_out k => ReservationViewSet_check_out k >>> ret tt
  end.

(** The place of a status in the lifecycle, the order of
    [STATUS_CHOICES]. *)
Fixpoint index_of (s : string) (l : list string) : option nat :=
  match l with
  | [] => None
  | x :: rest => if String.eqb s x then Some O else S <$> index_of s rest
  end.

Definition status_rank (s : string) : option nat := index_of s STATUS_CHOICES.

(** ** Payments *)

Definition Payment_save (p : instance Payment) : M unit :=
  modify (set_payments <[id p := attrs p]>).

(** [payment.payment_status = s] on the object [p]. *)
Definition with_payment_status (p : instance Payment) (s : string)
    : instance Payment :=
  mkInstance (id p)
    (mkPayment (reservation (attrs p)) (amount (attrs p))
               (payment_method (attrs p)) s).

(** [Payment.clean] ([models.py], 176-178). *)
Definition Payment_clean (self : Payment) : result unit :=
  if amount self <=? 0 then
    Raise (ValueError "Amount must be greater than zero.")
  else Ok tt.

(** [Payment.mark_as_paid] ([models.py], 183-186). *)
Definition Payment_mark_as_paid (self : instance Payment)
    : M (instance Payment) :=
  if String.eqb (payment_status (attrs self)) "pending" then
    let self' := with_payment_status self "completed" in
    Payment_save self' >>> ret self'
  else ret self.

(** The validated attributes [PaymentSerializer.create] receives: the
    writable fields of the serializer, [payment_status] present or not
    (the model gives it the default ['pending']), and [user] when the
    caller of [serializer.save] passed that keyword. *)
Record PaymentData : Type := mkPaymentData {
  d_reservation : pk;
  d_amount : Z;
  d_payment_method : string;
  d_payment_status : option string;
  d_user : option CustomUser
}.

(** [PaymentSerializer.validate_amount] ([serializers.py], 139-142). *)
Definition PaymentSerializer_validate_amount (value : Z) : field Z :=
  if value <=? 0 then Invalid ["Amount must be greater than zero."]
  else Valid value.

(** [Payment.objects.create] on the validated attributes as keyword
    arguments.  [Payment] has no attribute [user]: the constructor refuses
    that keyword.  Then the row is inserted under a new key, unless the
    store refuses it: [reservation] is a [OneToOneField], so no two
    payments have the same, and it is the key of a stored reservation. *)
Definition Payment_objects_create (vd : PaymentData) : M (instance Payment) :=
  match d_user vd with
  | Some _ =>
    raise (TypeError "Payment() got unexpected keyword arguments: 'user'")
  | None =>
    let* table := gets payments in
    let* stays := gets reservations in
    let self :=
      mkInstance (new_pk table)
        (mkPayment (d_reservation vd) (d_amount vd) (d_payment_method vd)
                   (default "pending" (d_payment_status vd))) in
    if existsb (fun p => Pos.eqb (reservation p) (d_reservation vd))
               (objects table) then
      raise (IntegrityError
               "UNIQUE constraint failed: core_payment.reservation_id")
    else
      match stays !! d_reservation vd with
      | None => raise (IntegrityError "FOREIGN KEY constraint failed")
      | Some _ => Payment_save self >>> ret self
      end
  end.

(** [PaymentSerializer.create] ([serializers.py], 144-154). *)
Definition PaymentSerializer_create (validated_data : PaymentData)
    : M (instance Payment) :=
  let* payment := Payment_objects_create validated_data in
  let payment' :=
    if String.eqb (payment_method (attrs payment)) "cash"
       || String.eqb (payment_method (attrs payment)) "mobile"
    then with_payment_status payment "completed"
    else with_payment_status payment "pending" in
  Payment_save payment' >>> ret payment'.

(** [PaymentViewSet.perform_create] ([views.py], 152-154):
    [serializer.save(user=self.request.user)] adds the keyword to the
    validated attributes and calls [create] on them. *)
Definition PaymentViewSet_perform_create (user : CustomUser)
    (validated_data : PaymentData) : M (instance Payment) :=
  PaymentSerializer_create
    (mkPaymentData (d_reservation validated_data) (d_amount validated_data)
                   (d_payment_method validated_data)
                   (d_payment_status validated_data) (Some user)).

(** The status [PaymentSerializer.create] leaves on a payment of the given
    method. *)
Definition status_of_method (method : string) : string :=
  if String.eqb method "cash" || String.eqb method "mobile"
  then "completed" else "pending".

(** ** Further rules of [core/models.py] and [core/views.py] *)

(** [Reservation.is_active] ([models.py], 102-104). *)
Definition Reservation_is_active (today : date) (self : Reservation) : bool :=
  (check_in_date self <=? today) && (today <=? check_out_date self).

(** [request.user.is_staff]: false for the anonymous user. *)
Definition user_is_staff (user : RequestUser) : bool :=
  match user with
  | AnonymousUser => false
  | Authenticated u => is_staff u
  end.

(** [class IsAdmin] of [views.py], 39-41. *)
Definition views_IsAdmin_has_permission (user : RequestUser) : result bool :=
  Ok (is_authenticated user && user_is_staff user).

(** The statements of [views.py] that bind [IsAdmin]: the import from
    [.permissions] (line 21), then the class statement (line 39). *)
Definition views_py_IsAdmin : list (string * (RequestUser -> result bool)) :=
  [("IsAdmin", IsAdmin_has_permission);
   ("IsAdmin", views_IsAdmin_has_permission)].

(** The check of a view over permission predicates given as functions,
    as [check_permissions] runs it over the named classes. *)
Fixpoint check_predicates (predicates : list (RequestUser -> result bool))
    (user : RequestUser) : result unit :=
  match predicates with
  | [] => Ok tt
  | p :: rest =>
    match p user with
    | Ok true => check_predicates rest user
    | Ok false =>
      Raise (if is_authenticated user then PermissionDenied
             else NotAuthenticated)
    | Raise e => Raise e
    end
  end.

(** [permission_classes = [IsAuthenticated, IsAdmin]] as the view sets of
    [views.py] (rooms, halls, employees, accounts, financial report) read
    it: [IsAdmin] is what the name is bound to in that module. *)
Definition views_admin_gate (user : RequestUser) : result unit :=
  match module_namespace views_py_IsAdmin !! "IsAdmin" with
  | Some is_admin =>
    check_predicates [has_permission IsAuthenticated; is_admin] user
  | None => Raise (ImportError "cannot import name 'IsAdmin'")
  end.

(** The same attribute as the view sets of [api.py] read it: there
    [IsAdmin] is the class of [permissions.py]. *)
Definition api_admin_gate (user : RequestUser) : result unit :=
  check_permissions [IsAuthenticated; IsAdmin] user.

(** ** Reports ([ReportViewSet], [views.py], 198-241) *)

Definition count {A} (rows : list A) : Z := Z.of_nat (length rows).

(** [aggregate(Sum(column))] over the values of the column: [None] when
    there is no row. *)
Definition aggregate_Sum (values : list Z) : option Z :=
  match values with
  | [] => None
  | _ => Some (foldr Z.add 0 values)
  end.

(** [reservation_report]: the keys of the answer with their numbers. *)
Definition ReportViewSet_reservation_report (db : DB) : list (string * Z) :=
  let total_reservations := count (objects (reservations db)) in
  let active_reservations :=
    count (filter (fun r => status r = "confirmed")
                  (objects (reservations db))) in
  [("total_reservations", total_reservations);
   ("active_reservations", active_reservations)].

(** [revenue_report]; [total_revenue or 0.00] is the sum, or zero when the
    aggregate is [None] (or zero itself).  Amounts are in hundredths. *)
Definition ReportViewSet_revenue_report (db : DB) : list (string * Z) :=
  let total_revenue :=
    aggregate_Sum
      (amount <$> filter (fun p => payment_status p = "completed")
                         (objects (payments db))) in
  [("total_revenue", default 0 total_revenue)].

(** [transaction_report]; the count is a number of rows, the sales are in
    hundredths. *)
Definition ReportViewSet_transaction_report (db : DB) : list (string * Z) :=
  let total_transactions := count (objects (transactions db)) in
  let total_sales :=
    aggregate_Sum (row_total_price <$> objects (transactions db)) in
  [("total_transactions", total_transactions);
   ("total_sales", default 0 total_sales)].

(** ** Simplified login ([SimplifiedLoginView], [views.py], 130-143) *)

(** A row of [BarAccount] or of [RestaurantAccount]: the two models
    declare the same three columns. *)
Record Account : Type := mkAccount {
  account_name : string;
  balance : Z;
  password : string
}.

(** What the view does with a request: it answers, or the query raises
    because the model has no such column. *)
Inductive login_outcome : Type :=
| Answered (r : Response)
| FieldError (msg : string).

(** The models the view chooses from. *)
Inductive account_model : Type :=
| BarAccount_model
| RestaurantAccount_model
| Reservation_model.

(** The dictionary of the view, and [dict.get]: the value under the key,
    [None] without it (and for a request that carries no key). *)
Definition account_models : list (string * account_model) :=
  [("bar", BarAccount_model);
   ("restaurant", RestaurantAccount_model);
   ("reservation", Reservation_model)].

Fixpoint dict_get {A} (d : list (string * A)) (key : option string)
    : option A :=
  match d, key with
  | (k, v) :: rest, Some s =>
    if String.eqb s k then Some v else dict_get rest key
  | _, _ => None
  end.

(** [account_model.objects.filter(password=password).first()] on a table
    of accounts; a request without the key asks for a null password,
    which no row has.  Which of several matching rows comes first does not
    reach the answer. *)
Definition first_with_password (table : gmap pk Account)
    (pw : option string) : option Account :=
  match pw with
  | Some p => head (filter (fun a => password a = p) (objects table))
  | None => None
  end.

(** The answer for an account type once the query has run;
    [account_type.capitalize()] is [kind]. *)
Definition login_answer (kind : string) (account : option Account)
    : login_outcome :=
  match account with
  | Some _ =>
    Answered (mkResponse [("message", kind +:+ " login successful")]
                         HTTP_200_OK)
  | None =>
    Answered (mkResponse [("error", "Invalid password")]
                         HTTP_400_BAD_REQUEST)
  end.

(** [SimplifiedLoginView.post].  [Reservation] has no column [password]:
    the query on it raises. *)
Definition SimplifiedLoginView_post
    (bar_accounts restaurant_accounts : gmap pk Account)
    (pw account_type : option string) : login_outcome :=
  match dict_get account_models account_type with
  | None =>
    Answered (mkResponse [("error", "Invalid account type")]
                         HTTP_400_BAD_REQUEST)
  | Some BarAccount_model =>
    login_answer "Bar" (first_with_password bar_accounts pw)
  | Some RestaurantAccount_model =>
    login_answer "Restaurant" (first_with_password restaurant_accounts pw)
  | Some Reservation_model =>
    FieldError "Cannot resolve keyword 'password' into field."
  end.

(** ** Invariants of the store *)

(** No stored item has a negative quantity. *)
Definition stock_nonnegative (db : DB) : Prop :=
  forall k it, inventory_items db !! k = Some it -> 0 <= quantity it.

(** ** Stores and users of the scenarios *)

Definition empty_db : DB := mkDB ∅ ∅ ∅ ∅ ∅.

Definition staff_user : RequestUser :=
  Authenticated (mkUser "amina" "staff" false).

(** One item: ten in stock at 5.00. *)
Definition bar_db : DB :=
  set_inventory_items <[1%positive := mkInventoryItem "Soda" 10 500]> empty_db.

(** Room 1, and reservation 1 of guest 7 for days 100 to 102. *)
Definition lodge_db (s : string) : DB :=
  mkDB {[1%positive := mkRoom "101" 2 8000]}
       {[1%positive := mkReservation 7%positive 1%positive 100 102 s]}
       ∅ ∅ ∅.

(** * Properties *)

(** Unfolds the operations of the store monad. *)
Ltac run :=
  unfold bind, ret, raise, lift, gets, modify in *; simpl in *.

(** ** Point of sale *)

Lemma PositiveIntegerField_valid (v : Z) :
  0 <= v <= PositiveIntegerField_max_value ->
  PositiveIntegerField v = Valid v.
Proof.
  intros [Hmin Hmax]. unfold PositiveIntegerField, IntegerField.
  destruct (Z.ltb_spec PositiveIntegerField_max_value v); [lia |].
  destruct (Z.ltb_spec v 0); [lia | reflexivity].
Qed.

Lemma PositiveIntegerField_above (v : Z) :
  PositiveIntegerField_max_value < v ->
  PositiveIntegerField v
  = Invalid ["Ensure this value is less than or equal to "
               +:+ pretty PositiveIntegerField_max_value +:+ "."].
Proof.
  intros Hmax. unfold PositiveIntegerField, IntegerField.
  destruct (Z.ltb_spec PositiveIntegerField_max_value v); [reflexivity | lia].
Qed.

Lemma PositiveIntegerField_accepts (v v' : Z) :
  PositiveIntegerField v = Valid v' ->
  v' = v /\ 0 <= v <= PositiveIntegerField_max_value.
Proof.
  unfold PositiveIntegerField, IntegerField.
  destruct (Z.ltb_spec PositiveIntegerField_max_value v); [discriminate |].
  destruct (Z.ltb_spec v 0); [discriminate |].
  intros [= <-]. lia.
Qed.

Lemma field_checks_of_transaction (db : DB) (k : pk) (it : InventoryItem)
    (qs : Z) :
  inventory_items db !! k = Some it ->
  0 <= qs <= PositiveIntegerField_max_value ->
  TransactionSerializer_fields (mkTransactionData (Some k) (Some qs)) db
  = (Ok (mkTransactionValidated (mkInstance k it) qs), db).
Proof.
  intros Hk Hqs. unfold TransactionSerializer_fields, bind, gets, run_field.
  cbn [d_item d_quantity_sold]. unfold PrimaryKeyRelatedField. rewrite Hk.
  rewrite (PositiveIntegerField_valid qs Hqs). reflexivity.
Qed.

Lemma field_checks_of_transaction_above (db : DB) (k : pk)
    (it : InventoryItem) (qs : Z) :
  inventory_items db !! k = Some it ->
  PositiveIntegerField_max_value < qs ->
  TransactionSerializer_fields (mkTransactionData (Some k) (Some qs)) db
  = (Raise (ValidationError
              [("quantity_sold",
                "Ensure this value is less than or equal to "
                  +:+ pretty PositiveIntegerField_max_value +:+ ".")]),
     db).
Proof.
  intros Hk Hqs. unfold TransactionSerializer_fields, bind, gets, run_field.
  cbn [d_item d_quantity_sold]. unfold PrimaryKeyRelatedField. rewrite Hk.
  rewrite (PositiveIntegerField_above qs Hqs). reflexivity.
Qed.

(** [Transaction.save] refuses a sale above the stock before it writes
    anything. *)
Lemma Transaction_save_insufficient (self : Transaction) (db : DB) :
  quantity (attrs (item self)) < quantity_sold self ->
  Transaction_save self db
  = (Raise (ValueError "Not enough stock available for this transaction."),
     db).
Proof.
  intros Hlt. unfold Transaction_save.
  destruct (Z.ltb_spec (quantity (attrs (item self))) (quantity_sold self));
    [reflexivity | lia].
Qed.

(** C1, as stated, fails: with ten in stock, a request for more than the
    column [quantity_sold] can hold is refused by the field itself, with
    its own error under the name of the field; the request does not get
    to [validate], and the answer does not report the stock. *)
Lemma transaction_create_above_range :
  inventory_items bar_db !! 1%positive = Some (mkInventoryItem "Soda" 10 500)
  /\ 10 < 9223372036854775808
  /\ TransactionViewSet_create staff_user
       (mkTransactionData (Some 1%positive) (Some 9223372036854775808)) bar_db
     = (Raise (ValidationError
                 [("quantity_sold",
                   "Ensure this value is less than or equal to "
                     +:+ "9223372036854775807.")]),
        bar_db).
Proof.
  split; [reflexivity |]. split; [lia |]. vm_compute. reflexivity.
Qed.

(** C1, amended.  A sale of more than the stock of the item is refused by
    [POST /api/transactions/] with a validation error, and the store is
    left as it was, stock included.  The error is that of [validate] and
    reports the quantity available when the quantity sold is one the
    column can hold; above that it is the error of the field.
    [Transaction.save] called on such a sale raises before it writes. *)
Theorem transaction_create_insufficient_stock
    (u : CustomUser) (db : DB) (k : pk) (it : InventoryItem) (qs total : Z) :
  inventory_items db !! k = Some it ->
  0 <= quantity it ->
  quantity it < qs ->
  TransactionViewSet_create (Authenticated u)
    (mkTransactionData (Some k) (Some qs)) db
  = (Raise (ValidationError
              (if qs <=? PositiveIntegerField_max_value then
                 [(non_field_errors,
                   "Only " +:+ pretty (quantity it)
                     +:+ " items are available in stock.")]
               else
                 [("quantity_sold",
                   "Ensure this value is less than or equal to "
                     +:+ pretty PositiveIntegerField_max_value +:+ ".")])),
     db)
  /\ Transaction_save (mkTransaction (mkInstance k it) qs total) db
     = (Raise (ValueError "Not enough stock available for this transaction."),
        db).
Proof.
  intros Hk Hq Hlt. split.
  - unfold TransactionViewSet_create, bind at 1 2. simpl.
    destruct (Z.leb_spec qs PositiveIntegerField_max_value) as [Hle | Hgt].
    + rewrite (field_checks_of_transaction db k it qs Hk) by lia.
      unfold bind, lift, TransactionSerializer_validate. simpl.
      destruct (Z.ltb_spec (quantity it) qs); [reflexivity | lia].
    + rewrite (field_checks_of_transaction_above db k it qs Hk Hgt).
      reflexivity.
  - apply Transaction_save_insufficient. simpl. lia.
Qed.

Lemma transaction_create_insufficient_stock_witness :
  TransactionViewSet_create staff_user
    (mkTransactionData (Some 1%positive) (Some 11)) bar_db
  = (Raise (ValidationError
              [(non_field_errors, "Only 10 items are available in stock.")]),
     bar_db)
  /\ Transaction_save
       (mkTransaction (mkInstance 1%positive (mkInventoryItem "Soda" 10 500))
                      11 0) bar_db
     = (Raise (ValueError "Not enough stock available for this transaction."),
        bar_db).
Proof.
  apply (transaction_create_insufficient_stock
           (mkUser "amina" "staff" false) bar_db 1%positive
           (mkInventoryItem "Soda" 10 500) 11 0);
    [reflexivity | simpl; lia | simpl; lia].
Defined.

(** [TransactionSerializer.create] on a sale the stock covers, as
    [validate] lets through: the first deduction is stored, and what
    follows is [Transaction.save] on the item as it is then. *)
Lemma TransactionSerializer_create_run (d : TransactionValidated) (db : DB) :
  let q := quantity (attrs (v_item d)) in
  let qs := v_quantity_sold d in
  0 <= qs <= q ->
  TransactionSerializer_create d db
  = if q - qs <? qs then
      (Raise (ValueError "Not enough stock available for this transaction."),
       set_inventory_items
         <[id (v_item d) := mkInventoryItem (name (attrs (v_item d))) (q - qs)
                                            (price (attrs (v_item d)))]> db)
    else
      (Ok (mkTransaction (with_quantity (v_item d) (q - qs - qs)) qs
                         (qs * price (attrs (v_item d)))),
       set_transactions
         <[new_pk (transactions db) :=
             mkTransactionRow (id (v_item d)) qs
                              (qs * price (attrs (v_item d)))]>
         (set_inventory_items
            <[id (v_item d) :=
                mkInventoryItem (name (attrs (v_item d))) (q - qs - qs)
                                (price (attrs (v_item d)))]>
            (set_inventory_items
               <[id (v_item d) :=
                   mkInventoryItem (name (attrs (v_item d))) (q - qs)
                                   (price (attrs (v_item d)))]> db))).
Proof.
  intros q qs [Hqs Hle].
  unfold TransactionSerializer_create, Transaction_objects_create,
    Transaction_save, Transaction_super_save, InventoryItem_save. simpl.
  fold q qs.
  destruct (Z.ltb_spec (q - qs) 0); [lia |].
  unfold bind at 1, modify. simpl.
  destruct (Z.ltb_spec (q - qs) qs); [reflexivity |].
  destruct (Z.ltb_spec (q - qs - qs) 0); [lia |].
  destruct (Z.ltb_spec qs 0); [lia |].
  reflexivity.
Qed.

(** [TransactionSerializer.create] takes the quantity off the item and
    saves it, and [Transaction.save], which [Transaction.objects.create]
    runs on the same object, takes it off once more: where the stock
    covers twice the quantity sold, the stored stock drops by twice the
    quantity sold. *)
Lemma TransactionSerializer_create_deducts_twice
    (d : TransactionValidated) (db : DB) :
  let q := quantity (attrs (v_item d)) in
  let qs := v_quantity_sold d in
  0 <= qs ->
  qs <= q - qs ->
  exists tx db',
    TransactionSerializer_create d db = (Ok tx, db')
    /\ inventory_items db' !! id (v_item d)
       = Some (mkInventoryItem (name (attrs (v_item d))) (q - qs - qs)
                               (price (attrs (v_item d))))
    /\ quantity_sold tx = qs
    /\ total_price tx = qs * price (attrs (v_item d)).
Proof.
  intros q qs Hqs Hle.
  rewrite TransactionSerializer_create_run by (fold q qs; lia). fold q qs.
  destruct (Z.ltb_spec (q - qs) qs); [lia |].
  eexists _, _. split; [reflexivity |]. simpl.
  rewrite lookup_insert_eq. auto.
Qed.

(** Where the stock covers the quantity sold but not twice it, the second
    check raises after the first deduction is stored: no transaction row,
    and the stock is down by the quantity sold. *)
Lemma TransactionSerializer_create_raises_after_deduction
    (d : TransactionValidated) (db : DB) :
  let q := quantity (attrs (v_item d)) in
  let qs := v_quantity_sold d in
  0 <= qs <= q ->
  q - qs < qs ->
  TransactionSerializer_create d db
  = (Raise (ValueError "Not enough stock available for this transaction."),
     set_inventory_items
       <[id (v_item d) := mkInventoryItem (name (attrs (v_item d))) (q - qs)
                                          (price (attrs (v_item d)))]> db).
Proof.
  intros q qs Hqs Hlt.
  rewrite TransactionSerializer_create_run by (fold q qs; lia). fold q qs.
  destruct (Z.ltb_spec (q - qs) qs); [reflexivity | lia].
Qed.

(** C2.  On the scenario of the specification (ten in stock at 5.00, three
    sold) [POST /api/transactions/] answers with a transaction of total
    15.00 and leaves four in stock, not seven; with six sold, which the
    stock covers, it raises and leaves four in stock and no transaction. *)
Theorem transaction_create_scenario :
  (exists tx db',
     TransactionViewSet_create staff_user
       (mkTransactionData (Some 1%positive) (Some 3)) bar_db = (Ok tx, db')
     /\ total_price tx = 1500
     /\ quantity <$> inventory_items db' !! 1%positive = Some 4)
  /\ (exists db',
        TransactionViewSet_create staff_user
          (mkTransactionData (Some 1%positive) (Some 6)) bar_db
        = (Raise
             (ValueError "Not enough stock available for this transaction."),
           db')
        /\ quantity <$> inventory_items db' !! 1%positive = Some 4
        /\ transactions db' = ∅).
Proof.
  split.
  - eexists _, _. split; [vm_compute; reflexivity |].
    split; reflexivity.
  - eexists. split; [vm_compute; reflexivity |].
    split; reflexivity.
Qed.

(** ** Reservation lifecycle *)

Lemma get_object_found {A} (table : DB -> gmap pk A) (k : pk) (row : A)
    (db : DB) :
  table db !! k = Some row ->
  get_object table k db = (Ok (mkInstance k row), db).
Proof. intros H. unfold get_object. run. rewrite H. reflexivity. Qed.

Lemma get_object_missing {A} (table : DB -> gmap pk A) (k : pk) (db : DB) :
  table db !! k = None ->
  get_object table k db = (Raise Http404, db).
Proof. intros H. unfold get_object. run. rewrite H. reflexivity. Qed.

Lemma eqb_string_true (s t : string) : String.eqb s t = true <-> s = t.
Proof. apply String.eqb_eq. Qed.

Lemma eqb_string_false (s t : string) : String.eqb s t = false <-> s <> t.
Proof. apply String.eqb_neq. Qed.

(** The two handlers have one shape: a guard on the current status, then
    the new status is stored. *)
Lemma check_in_run (db : DB) (k : pk) (r : Reservation) :
  reservations db !! k = Some r ->
  ReservationViewSet_check_in k db
  = if String.eqb (status r) "confirmed"
    then (Ok (mkResponse [("status", "checked in")] HTTP_200_OK),
          set_reservations
            <[k := attrs (with_status (mkInstance k r) "checked_in")]> db)
    else (Ok (mkResponse
                [("error", "Reservation must be confirmed before check-in")]
                HTTP_400_BAD_REQUEST),
          db).
Proof.
  intros Hk. unfold ReservationViewSet_check_in, bind at 1.
  rewrite (get_object_found reservations k r db Hk). simpl.
  destruct (String.eqb (status r) "confirmed"); reflexivity.
Qed.

Lemma check_out_run (db : DB) (k : pk) (r : Reservation) :
  reservations db !! k = Some r ->
  ReservationViewSet_check_out k db
  = if String.eqb (status r) "checked_in"
    then (Ok (mkResponse [("status", "checked out")] HTTP_200_OK),
          set_reservations
            <[k := attrs (with_status (mkInstance k r) "checked_out")]> db)
    else (Ok (mkResponse
                [("error", "Reservation must be checked in before check-out")]
                HTTP_400_BAD_REQUEST),
          db).
Proof.
  intros Hk. unfold ReservationViewSet_check_out, bind at 1.
  rewrite (get_object_found reservations k r db Hk). simpl.
  destruct (String.eqb (status r) "checked_in"); reflexivity.
Qed.

(** C3.  For a stored reservation, [check_in] answers 200 exactly when the
    status is ['confirmed'] and then stores ['checked_in']; [check_out]
    answers 200 exactly when the status is ['checked_in'] and then stores
    ['checked_out']; from any other status each answers 400 with its error
    message and the store, the status with it, is left as it was. *)
Theorem check_in_check_out_guarded (db : DB) (k : pk) (r : Reservation) :
  reservations db !! k = Some r ->
  (status r = "confirmed" ->
     ReservationViewSet_check_in k db
     = (Ok (mkResponse [("status", "checked in")] HTTP_200_OK),
        set_reservations
          <[k := mkReservation (guest r) (room r) (check_in_date r)
                               (check_out_date r) "checked_in"]> db))
  /\ (status r <> "confirmed" ->
        ReservationViewSet_check_in k db
        = (Ok (mkResponse
                 [("error", "Reservation must be confirmed before check-in")]
                 HTTP_400_BAD_REQUEST),
           db))
  /\ (status r = "checked_in" ->
        ReservationViewSet_check_out k db
        = (Ok (mkResponse [("status", "checked out")] HTTP_200_OK),
           set_reservations
             <[k := mkReservation (guest r) (room r) (check_in_date r)
                                  (check_out_date r) "checked_out"]> db))
  /\ (status r <> "checked_in" ->
        ReservationViewSet_check_out k db
        = (Ok (mkResponse
                 [("error", "Reservation must be checked in before check-out")]
                 HTTP_400_BAD_REQUEST),
           db)).
Proof.
  intros Hk.
  rewrite (check_in_run db k r Hk), (check_out_run db k r Hk).
  repeat split; intros H.
  - apply eqb_string_true in H. rewrite H. reflexivity.
  - apply eqb_string_false in H. rewrite H. reflexivity.
  - apply eqb_string_true in H. rewrite H. reflexivity.
  - apply eqb_string_false in H. rewrite H. reflexivity.
Qed.

Lemma check_in_check_out_guarded_witness :
  ReservationViewSet_check_in 1%positive (lodge_db "pending")
  = (Ok (mkResponse
           [("error", "Reservation must be confirmed before check-in")]
           HTTP_400_BAD_REQUEST),
     lodge_db "pending")
  /\ ReservationViewSet_check_in 1%positive (lodge_db "confirmed")
     = (Ok (mkResponse [("status", "checked in")] HTTP_200_OK),
        set_reservations
          <[1%positive := mkReservation 7%positive 1%positive 100 102
                                        "checked_in"]>
          (lodge_db "confirmed")).
Proof.
  split.
  - apply (check_in_check_out_guarded (lodge_db "pending") 1%positive
             (mkReservation 7%positive 1%positive 100 102 "pending"));
      [reflexivity | simpl; discriminate].
  - apply (check_in_check_out_guarded (lodge_db "confirmed") 1%positive
             (mkReservation 7%positive 1%positive 100 102 "confirmed"));
      reflexivity.
Defined.

(** The methods [check_in] and [check_out] of the model leave the store as
    the handlers of the view set do; what differs is that the methods
    report nothing when the status does not allow the step. *)
Lemma Reservation_methods_agree_with_handlers (db : DB) (k : pk)
    (r : Reservation) :
  reservations db !! k = Some r ->
  snd (Reservation_check_in (mkInstance k r) db)
  = snd (ReservationViewSet_check_in k db)
  /\ snd (Reservation_check_out (mkInstance k r) db)
     = snd (ReservationViewSet_check_out k db).
Proof.
  intros Hk. rewrite (check_in_run db k r Hk), (check_out_run db k r Hk).
  unfold Reservation_check_in, Reservation_check_out. simpl.
  destruct (String.eqb (status r) "confirmed");
    destruct (String.eqb (status r) "checked_in"); split; reflexivity.
Qed.

Lemma ChoiceField_valid (choices : list string) (s s' : string) :
  ChoiceField choices s = Valid s' -> s' = s /\ In s choices.
Proof.
  unfold ChoiceField. destruct (existsb (String.eqb s) choices) eqn:E.
  - intros [= <-]. split; [reflexivity |].
    apply existsb_exists in E as (x & Hin & Heq).
    apply String.eqb_eq in Heq. subst x. exact Hin.
  - discriminate.
Qed.

(** [Meta.fields] of [ReservationSerializer] names two attributes that
    [Reservation] does not have: building the fields stops at the first,
    and so does every [is_valid] of the serializer, with the store as it
    was. *)
Lemma ReservationSerializer_fields_raise (partial : bool)
    (d : ReservationData) (db : DB) :
  ReservationSerializer_fields partial d db
  = (Raise (not_valid_for_model "guest_name" "Reservation"),
     db).
Proof. reflexivity. Qed.

Section ReservationRequests.

(** The day the requests arrive. *)
Variable today : date.

Lemma ReservationSerializer_validate_ok (d d' : ReservationData) :
  ReservationSerializer_validate today d = Ok d' -> d' = d.
Proof.
  unfold ReservationSerializer_validate, date_lt, date_le.
  destruct (d_check_in_date d) as [ci|]; [| discriminate].
  destruct (ci <? today); [discriminate |].
  destruct (d_check_out_date d) as [co|]; [| discriminate].
  destruct (co <=? ci); [discriminate |]. congruence.
Qed.

(** A creation request stops where the serializer builds its fields. *)
Lemma ReservationViewSet_create_run (d : ReservationData) (db : DB) :
  ReservationViewSet_create today d db
  = (Raise (not_valid_for_model "guest_name" "Reservation"),
     db).
Proof. reflexivity. Qed.

(** An update finds its object or answers 404, and then stops where the
    serializer builds its fields. *)
Lemma ReservationViewSet_update_run (partial : bool) (k : pk)
    (d : ReservationData) (db : DB) :
  ReservationViewSet_update today partial k d db
  = match reservations db !! k with
    | Some _ =>
      (Raise (not_valid_for_model "guest_name" "Reservation"), db)
    | None => (Raise Http404, db)
    end.
Proof.
  unfold ReservationViewSet_update, bind at 1.
  destruct (reservations db !! k) as [row|] eqn:Hk.
  - rewrite (get_object_found reservations k row db Hk). reflexivity.
  - rewrite (get_object_missing reservations k db Hk). reflexivity.
Qed.

(** C4.  Whatever the request to the reservation routes (create, update,
    partial update, check_in, check_out) and whoever sends it, a stored
    reservation is still stored afterwards, and it is as it was unless the
    request is a [check_in] on it while ['confirmed'], which makes it
    ['checked_in'], or a [check_out] on it while ['checked_in'], which
    makes it ['checked_out']: its status stays or moves one place up
    pending, confirmed, checked_in, checked_out, never back. *)
Theorem reservation_status_only_advances (user : RequestUser)
    (req : ReservationRequest) (db : DB) (k : pk) (r : Reservation) :
  reservations db !! k = Some r ->
  exists r',
    reservations (snd (ReservationViewSet_dispatch today user req db)) !! k
    = Some r'
    /\ (r' = r
        \/ (req = POST_check_in k /\ status r = "confirmed"
            /\ r' = mkReservation (guest r) (room r) (check_in_date r)
                                  (check_out_date r) "checked_in")
        \/ (req = POST_check_out k /\ status r = "checked_in"
            /\ r' = mkReservation (guest r) (room r) (check_in_date r)
                                  (check_out_date r) "checked_out"))
    /\ (status r' = status r
        \/ exists n,
             status_rank (status r) = Some n
             /\ status_rank (status r') = Some (S n)).
Proof.
  intros Hk. unfold ReservationViewSet_dispatch, bind at 1, lift.
  destruct user as [|u]; simpl.
  { exists r. auto. }
  destruct req as [d | k' d | k' d | k' | k'].
  - unfold bind. rewrite ReservationViewSet_create_run. simpl.
    exists r. auto.
  - unfold bind. rewrite ReservationViewSet_update_run.
    destruct (reservations db !! k'); simpl; exists r; auto.
  - unfold bind. rewrite ReservationViewSet_update_run.
    destruct (reservations db !! k'); simpl; exists r; auto.
  - unfold bind at 1. destruct (reservations db !! k') as [row|] eqn:Hk'.
    + rewrite (check_in_run db k' row Hk').
      destruct (String.eqb (status row) "confirmed") eqn:E; simpl;
        [| exists r; auto].
      apply eqb_string_true in E.
      destruct (decide (k' = k)) as [-> | Hne].
      * rewrite lookup_insert_eq. eexists. split; [reflexivity |].
        assert (row = r) by congruence. subst row. simpl.
        split; [right; left; auto |].
        right. exists 1%nat. rewrite E. split; reflexivity.
      * rewrite lookup_insert_ne by exact Hne. exists r. auto.
    + unfold ReservationViewSet_check_in, bind.
      rewrite (get_object_missing reservations k' db Hk'). simpl.
      exists r. auto.
  - unfold bind at 1. destruct (reservations db !! k') as [row|] eqn:Hk'.
    + rewrite (check_out_run db k' row Hk').
      destruct (String.eqb (status row) "checked_in") eqn:E; simpl;
        [| exists r; auto].
      apply eqb_string_true in E.
      destruct (decide (k' = k)) as [-> | Hne].
      * rewrite lookup_insert_eq. eexists. split; [reflexivity |].
        assert (row = r) by congruence. subst row. simpl.
        split; [right; right; auto |].
        right. exists 2%nat. rewrite E. split; reflexivity.
      * rewrite lookup_insert_ne by exact Hne. exists r. auto.
    + unfold ReservationViewSet_check_out, bind.
      rewrite (get_object_missing reservations k' db Hk'). simpl.
      exists r. auto.
Qed.

(** [validate] on a request that carries both dates: the first rule that
    fails is the one reported. *)
Lemma ReservationSerializer_validate_dates (ci co : date)
    (d : ReservationData) :
  d_check_in_date d = Some ci ->
  d_check_out_date d = Some co ->
  ReservationSerializer_validate today d
  = if ci <? today then
      Raise (ValidationError
               [(non_field_errors, "Check-in date cannot be in the past.")])
    else if co <=? ci then
      Raise (ValidationError
               [(non_field_errors,
                 "Check-out date must be after check-in date.")])
    else Ok d.
Proof.
  intros Hci Hco. unfold ReservationSerializer_validate, date_lt, date_le.
  rewrite Hci, Hco. destruct (ci <? today); [reflexivity |].
  destruct (co <=? ci); reflexivity.
Qed.

(** [Reservation.clean] states the same two rules on a model instance. *)
Lemma Reservation_clean_rejects (self : Reservation) :
  check_in_date self < today \/ check_out_date self <= check_in_date self ->
  exists msg, Reservation_clean today self = Raise (ValueError msg).
Proof.
  intros H. unfold Reservation_clean.
  destruct (Z.ltb_spec (check_in_date self) today); [eexists; reflexivity |].
  destruct (Z.leb_spec (check_out_date self) (check_in_date self));
    [eexists; reflexivity | lia].
Qed.

End ReservationRequests.

(** A check-in on a confirmed reservation is one of the cases. *)
Lemma reservation_status_only_advances_witness :
  exists r',
    reservations
      (snd (ReservationViewSet_dispatch 100 staff_user
              (POST_check_in 1%positive) (lodge_db "confirmed")))
      !! 1%positive = Some r'
    /\ status r' = "checked_in".
Proof.
  destruct (reservation_status_only_advances 100 staff_user
              (POST_check_in 1%positive) (lodge_db "confirmed") 1%positive
              (mkReservation 7%positive 1%positive 100 102 "confirmed")
              eq_refl)
    as (r' & Hk & _ & _).
  exists r'. split; [exact Hk |].
  vm_compute in Hk. injection Hk as <-. reflexivity.
Defined.

(** C5.  The scenario of the specification, check-in today and check-out
    today, sent to [POST /api/reservations/] by a signed-in user: the
    request is not refused by [validate] with the message of the rule, it
    ends in [ImproperlyConfigured] where the serializer builds its fields;
    nothing is stored.  [validate] itself, handed the same data, raises
    the validation error of the rule. *)
Theorem reservation_create_scenario :
  ReservationViewSet_dispatch 100 staff_user
    (POST_reservations
       (mkReservationData (Some 1%positive) (Some 100) (Some 100) None))
    (lodge_db "pending")
  = (Raise (ImproperlyConfigured
              "Field name `guest_name` is not valid for model `Reservation`."),
     lodge_db "pending")
  /\ ReservationSerializer_validate 100
       (mkReservationData (Some 1%positive) (Some 100) (Some 100) None)
     = Raise (ValidationError
                [(non_field_errors,
                  "Check-out date must be after check-in date.")]).
Proof. split; reflexivity. Qed.

(** ** Payments *)

Lemma new_pk_fresh {A} (table : gmap pk A) : table !! new_pk table = None.
Proof. apply not_elem_of_dom. unfold new_pk. apply is_fresh. Qed.

Lemma elem_of_objects {A} (table : gmap pk A) (x : A) :
  x ∈ objects table <-> exists k, table !! k = Some x.
Proof.
  unfold objects. rewrite list_elem_of_fmap. split.
  - intros ([k y] & -> & Hin). exists k.
    apply elem_of_map_to_list in Hin. exact Hin.
  - intros (k & Hk). exists (k, x). split; [reflexivity |].
    apply elem_of_map_to_list. exact Hk.
Qed.

(** The search of the store for a payment of a reservation finds one
    exactly when one is stored. *)
Lemma payment_of_reservation_found (table : gmap pk Payment) (r : pk) :
  existsb (fun p => Pos.eqb (reservation p) r) (objects table) = true
  <-> exists k p, table !! k = Some p /\ reservation p = r.
Proof.
  rewrite existsb_exists. split.
  - intros (p & Hin & Heq). apply list_elem_of_In, elem_of_objects in Hin.
    destruct Hin as (k & Hk). exists k, p. split; [exact Hk |].
    apply Pos.eqb_eq. exact Heq.
  - intros (k & p & Hk & Heq). exists p. split.
    + apply list_elem_of_In, elem_of_objects. exists k. exact Hk.
    + apply Pos.eqb_eq. exact Heq.
Qed.

Lemma payment_of_reservation_missing (table : gmap pk Payment) (r : pk) :
  (forall k p, table !! k = Some p -> reservation p <> r) ->
  existsb (fun p => Pos.eqb (reservation p) r) (objects table) = false.
Proof.
  intros Hnone.
  destruct (existsb _ (objects table)) eqn:E; [| reflexivity].
  apply payment_of_reservation_found in E.
  destruct E as (k & p & Hk & Heq). destruct (Hnone k p Hk Heq).
Qed.

(** [PaymentSerializer.create] where the store takes the row: the payment
    is stored under a new key with the status its method gives it. *)
Lemma PaymentSerializer_create_run (vd : PaymentData) (db : DB) :
  d_user vd = None ->
  is_Some (reservations db !! d_reservation vd) ->
  (forall k p, payments db !! k = Some p ->
               reservation p <> d_reservation vd) ->
  PaymentSerializer_create vd db
  = (Ok (mkInstance (new_pk (payments db))
           (mkPayment (d_reservation vd) (d_amount vd) (d_payment_method vd)
                      (status_of_method (d_payment_method vd)))),
     set_payments
       <[new_pk (payments db) :=
           mkPayment (d_reservation vd) (d_amount vd) (d_payment_method vd)
                     (status_of_method (d_payment_method vd))]> db).
Proof.
  intros Huser [r Hr] Hnone.
  unfold PaymentSerializer_create, Payment_objects_create, status_of_method.
  rewrite Huser. unfold bind at 1 2 3, gets. cbv beta iota.
  rewrite (payment_of_reservation_missing _ _ Hnone), Hr.
  unfold Payment_save, bind, modify, ret, set_payments. simpl.
  destruct (String.eqb (d_payment_method vd) "cash"
            || String.eqb (d_payment_method vd) "mobile");
    simpl; rewrite insert_insert_eq; reflexivity.
Qed.

(** What [PaymentSerializer.create] does where the row is not taken: it
    raises and writes nothing.  With the keyword [user] the constructor of
    [Payment] raises; a second payment of a reservation and a reservation
    that is not stored are refused by the store. *)
Lemma PaymentSerializer_create_refused (vd : PaymentData) (db : DB) :
  (is_Some (d_user vd) ->
   PaymentSerializer_create vd db
   = (Raise (TypeError "Payment() got unexpected keyword arguments: 'user'"),
      db))
  /\ (d_user vd = None ->
      (exists k p, payments db !! k = Some p
                   /\ reservation p = d_reservation vd) ->
      PaymentSerializer_create vd db
      = (Raise (IntegrityError
                  "UNIQUE constraint failed: core_payment.reservation_id"),
         db))
  /\ (d_user vd = None ->
      (forall k p, payments db !! k = Some p ->
                   reservation p <> d_reservation vd) ->
      reservations db !! d_reservation vd = None ->
      PaymentSerializer_create vd db
      = (Raise (IntegrityError "FOREIGN KEY constraint failed"), db)).
Proof.
  unfold PaymentSerializer_create, Payment_objects_create.
  split; [| split].
  - intros [u Hu]. rewrite Hu. reflexivity.
  - intros Hu Hsome. rewrite Hu. unfold bind at 1 2 3, gets. cbv beta iota.
    apply payment_of_reservation_found in Hsome. rewrite Hsome. reflexivity.
  - intros Hu Hnone Hr. rewrite Hu. unfold bind at 1 2 3, gets.
    cbv beta iota.
    rewrite (payment_of_reservation_missing _ _ Hnone), Hr. reflexivity.
Qed.




(** ** Roles *)

(** C10.  For a signed-in user whose role is one of the declared choices
    [IsGuest] answers false, and a view whose only permission class is
    [IsGuest] refuses the request. *)
Theorem IsGuest_refuses_declared_roles (u : CustomUser) :
  In (role u) ROLE_CHOICES ->
  IsGuest_has_permission (Authenticated u) = Ok false
  /\ check_permissions [IsGuest] (Authenticated u) = Raise PermissionDenied.
Proof.
  intros Hin. unfold check_permissions, has_permission,
    IsGuest_has_permission, user_role. simpl.
  assert (E : String.eqb (role u) "guest" = false).
  { apply eqb_string_false. intros Heq. rewrite Heq in Hin.
    simpl in Hin. intuition discriminate. }
  rewrite E. split; reflexivity.
Qed.

Lemma IsGuest_refuses_declared_roles_witness :
  IsGuest_has_permission (Authenticated (mkUser "amina" "staff" false))
  = Ok false
  /\ check_permissions [IsGuest]
       (Authenticated (mkUser "amina" "staff" false))
     = Raise PermissionDenied.
Proof.
  apply (IsGuest_refuses_declared_roles (mkUser "amina" "staff" false)).
  simpl. auto.
Defined.

(** ** Inventory *)

(** The name [InventoryItemSerializer] is bound twice in
    [serializers.py]; what [views.py] imports is the second class, the one
    without hooks. *)
Lemma InventoryItemViewSet_uses_second_class :
  InventoryItemViewSet_serializer_class = Some InventoryItemSerializer_166.
Proof. reflexivity. Qed.

Lemma PositiveIntegerField_below (v : Z) :
  v < 0 ->
  PositiveIntegerField v
  = Invalid ["Ensure this value is greater than or equal to 0."].
Proof.
  intros Hv. unfold PositiveIntegerField, IntegerField.
  destruct (Z.ltb_spec PositiveIntegerField_max_value v) as [Hmax |];
    [unfold PositiveIntegerField_max_value in Hmax; lia |].
  destruct (Z.ltb_spec v 0); [reflexivity | lia].
Qed.

(** What a [CharField] hands on is the trimmed value, which is not blank
    and within the length. *)
Lemma CharField_accepts (max_length : nat) (v v' : string) :
  CharField max_length v = Valid v' ->
  v' = strip v /\ v' <> "" /\ (String.length v' <= max_length)%nat.
Proof.
  unfold CharField.
  destruct (String.eqb (strip v) "") eqn:Eblank; [discriminate |].
  destruct (Nat.leb_spec (String.length (strip v)) max_length);
    [| discriminate].
  destruct (has_null_character (strip v)); [discriminate |].
  intros [= <-]. split; [reflexivity |]. split; [| assumption].
  apply eqb_string_false. exact Eblank.
Qed.

(** The first class refuses a negative quantity and a negative price, each
    under its field. *)
Lemma InventoryItemSerializer_65_refuses_negatives (n : string) (q p : Z) :
  q < 0 \/ p < 0 ->
  exists errors,
    InventoryItemSerializer_fields InventoryItemSerializer_65 false
      (mkInventoryItemData (Some n) (Some q) (Some p))
    = Raise (ValidationError errors)
    /\ ((q < 0 -> exists detail, In ("quantity", detail) errors)
        /\ (p < 0 -> exists detail, In ("price", detail) errors)).
Proof.
  intros Hneg.
  unfold InventoryItemSerializer_fields, run_field, with_hook.
  cbn [d_name d_quantity d_price validate_quantity validate_price
       InventoryItemSerializer_65].
  unfold InventoryItemSerializer_validate_quantity,
    InventoryItemSerializer_validate_price, DecimalField.
  destruct (CharField 255 n) as [n'|dn];
    (destruct (Z.ltb_spec q 0) as [Hq | Hq];
     [rewrite (PositiveIntegerField_below q Hq)
     | destruct (PositiveIntegerField q) as [q'|dq] eqn:Eq;
       [apply PositiveIntegerField_accepts in Eq as [-> _];
        destruct (Z.ltb_spec q 0); [lia |] |]]);
    destruct (Z.abs p <? 10 ^ 10); destruct (Z.ltb_spec p 0); try lia;
    cbn [errors_of fmap list_fmap app];
    (eexists; split; [reflexivity |]);
    (split; intros Hlt; [try lia | try lia]).
  all: eexists; rewrite ?in_app_iff; simpl; eauto 10.
Qed.

(** The class in use accepts any price of at most ten digits, negative
    ones included, with a name and a quantity that pass their checks. *)
Lemma InventoryItemSerializer_166_accepts_price (n n' : string) (q p : Z) :
  CharField 255 n = Valid n' ->
  0 <= q <= PositiveIntegerField_max_value ->
  Z.abs p < 10 ^ 10 ->
  InventoryItemSerializer_fields InventoryItemSerializer_166 false
    (mkInventoryItemData (Some n) (Some q) (Some p))
  = Ok (mkInventoryItemData (Some n') (Some q) (Some p)).
Proof.
  intros Hn Hq Hp.
  unfold InventoryItemSerializer_fields, run_field, with_hook.
  cbn [d_name d_quantity d_price validate_quantity validate_price
       InventoryItemSerializer_166].
  unfold DecimalField. rewrite Hn, (PositiveIntegerField_valid q Hq).
  destruct (Z.ltb_spec (Z.abs p) (10 ^ 10)); [reflexivity | lia].
Qed.

(** C7.  [POST /api/inventory/] with price -1.00 is accepted and the item
    is stored with that price; [PUT /api/inventory/1/] with price -5.00 is
    accepted and the stored price of item 1 becomes -5.00. *)
Theorem inventory_accepts_negative_price :
  (exists it db',
     InventoryItemViewSet_create [IsAuthenticated] staff_user
       (mkInventoryItemData (Some "Soda") (Some 1) (Some (-100))) empty_db
     = (Ok it, db')
     /\ inventory_items db' !! id it = Some (attrs it)
     /\ price (attrs it) = -100)
  /\ (exists it db',
        InventoryItemViewSet_update [IsAuthenticated] staff_user false
          1%positive
          (mkInventoryItemData (Some "Soda") (Some 10) (Some (-500))) bar_db
        = (Ok it, db')
        /\ price <$> inventory_items db' !! 1%positive = Some (-500)).
Proof.
  split.
  - eexists _, _. split; [vm_compute; reflexivity |].
    split; reflexivity.
  - eexists _, _. split; [vm_compute; reflexivity |]. reflexivity.
Qed.

(** ** Anonymous callers *)

(** C8, as stated, fails: [GET /api/users/], the list action of
    [UserViewSet], is neither registration nor sign-in and passes the
    permission check for an anonymous caller, also under project defaults
    that require authentication. *)
Lemma anonymous_may_list_users :
  In ("users", UserViewSet) router
  /\ In act_list (actions UserViewSet)
  /\ act_list <> act_sign_up
  /\ act_list <> act_sign_in
  /\ initial [IsAuthenticated] AnonymousUser UserViewSet act_list = Ok tt.
Proof.
  split; [simpl; auto |]. split; [simpl; auto |].
  split; [discriminate |]. split; [discriminate | reflexivity].
Qed.

(** C8, amended.  Whatever the project's default permission classes, an
    anonymous caller is refused on every action of the reservation,
    transaction and payment routes, and admitted on every action of the
    user routes, registration and sign-in among them. *)
Theorem anonymous_access (DEFAULT_PERMISSION_CLASSES : list Permission)
    (a : Action) :
  initial DEFAULT_PERMISSION_CLASSES AnonymousUser ReservationViewSet a
  = Raise NotAuthenticated
  /\ initial DEFAULT_PERMISSION_CLASSES AnonymousUser TransactionViewSet a
     = Raise NotAuthenticated
  /\ initial DEFAULT_PERMISSION_CLASSES AnonymousUser PaymentViewSet a
     = Raise NotAuthenticated
  /\ initial DEFAULT_PERMISSION_CLASSES AnonymousUser UserViewSet a = Ok tt.
Proof. repeat split. Qed.

(** The inventory and report routes set no permission class: what an
    anonymous caller gets there is what the project defaults say. *)
Lemma inventory_and_reports_follow_defaults
    (DEFAULT_PERMISSION_CLASSES : list Permission) (user : RequestUser)
    (a : Action) :
  initial DEFAULT_PERMISSION_CLASSES user InventoryItemViewSet a
  = check_permissions DEFAULT_PERMISSION_CLASSES user
  /\ initial DEFAULT_PERMISSION_CLASSES user ReportViewSet a
     = check_permissions DEFAULT_PERMISSION_CLASSES user.
Proof. split; reflexivity. Qed.

(** * Further properties *)

(** ** Sales *)

(** [Transaction.save] on a sale the stock covers. *)
Lemma Transaction_save_run (self : Transaction) (db : DB) :
  0 <= quantity_sold self <= quantity (attrs (item self)) ->
  Transaction_save self db
  = (Ok (mkTransaction
           (with_quantity (item self)
              (quantity (attrs (item self)) - quantity_sold self))
           (quantity_sold self)
           (quantity_sold self * price (attrs (item self)))),
     set_transactions
       <[new_pk (transactions db) :=
           mkTransactionRow (id (item self)) (quantity_sold self)
             (quantity_sold self * price (attrs (item self)))]>
       (set_inventory_items
          <[id (item self) :=
              mkInventoryItem (name (attrs (item self)))
                (quantity (attrs (item self)) - quantity_sold self)
                (price (attrs (item self)))]> db)).
Proof.
  intros [Hqs Hle].
  unfold Transaction_save, Transaction_super_save, InventoryItem_save.
  destruct (Z.ltb_spec (quantity (attrs (item self))) (quantity_sold self));
    [lia |].
  simpl.
  destruct (Z.ltb_spec (quantity (attrs (item self)) - quantity_sold self) 0);
    [lia |].
  destruct (Z.ltb_spec (quantity_sold self) 0); [lia |].
  reflexivity.
Qed.

(** A negative quantity passes the check of [Transaction.save]: the stock
    of the item is raised and stored, and only then the store refuses the
    row of the transaction. *)
Lemma Transaction_save_negative_quantity :
  Transaction_save
    (mkTransaction (mkInstance 1%positive (mkInventoryItem "Soda" 10 500))
                   (-3) 0) bar_db
  = (Raise (IntegrityError "CHECK constraint failed: quantity_sold"),
     set_inventory_items <[1%positive := mkInventoryItem "Soda" 13 500]>
                         bar_db).
Proof. reflexivity. Qed.

(** The transaction rows after [Transaction.save] has accepted a sale. *)
Lemma Transaction_save_rows (self : Transaction) (db : DB) :
  0 <= quantity_sold self <= quantity (attrs (item self)) ->
  transactions db !! new_pk (transactions db) = None
  /\ transactions (snd (Transaction_save self db))
     = <[new_pk (transactions db) :=
           mkTransactionRow (id (item self)) (quantity_sold self)
             (quantity_sold self * price (attrs (item self)))]>
         (transactions db).
Proof.
  intros Hle. split; [apply new_pk_fresh |].
  rewrite (Transaction_save_run self db Hle). reflexivity.
Qed.

(** X1.  [Transaction.save] on a sale of a quantity that is not negative
    and that the stock covers: the stock of the item drops by the quantity
    sold, the total is quantity times price whatever total the instance
    came with, one transaction row is added under a new key, and nothing
    else in the store changes. *)
Theorem Transaction_save_sells (self : Transaction) (db : DB) :
  0 <= quantity_sold self <= quantity (attrs (item self)) ->
  exists self' db',
    Transaction_save self db = (Ok self', db')
    /\ quantity_sold self' = quantity_sold self
    /\ total_price self' = quantity_sold self * price (attrs (item self))
    /\ item self'
       = with_quantity (item self)
           (quantity (attrs (item self)) - quantity_sold self)
    /\ inventory_items db'
       = <[id (item self) := attrs (item self')]> (inventory_items db)
    /\ transactions db !! new_pk (transactions db) = None
    /\ transactions db'
       = <[new_pk (transactions db) :=
             mkTransactionRow (id (item self)) (quantity_sold self)
               (quantity_sold self * price (attrs (item self)))]>
           (transactions db)
    /\ rooms db' = rooms db
    /\ reservations db' = reservations db
    /\ payments db' = payments db.
Proof.
  intros Hle. rewrite (Transaction_save_run self db Hle).
  eexists _, _. split; [reflexivity |]. simpl.
  repeat split. apply new_pk_fresh.
Qed.

Lemma Transaction_save_sells_witness :
  exists self' db',
    Transaction_save
      (mkTransaction (mkInstance 1%positive (mkInventoryItem "Soda" 10 500))
                     3 0) bar_db
    = (Ok self', db')
    /\ total_price self' = 1500
    /\ quantity <$> inventory_items db' !! 1%positive = Some 7.
Proof.
  destruct (Transaction_save_sells
              (mkTransaction
                 (mkInstance 1%positive (mkInventoryItem "Soda" 10 500)) 3 0)
              bar_db)
    as (self' & db' & Hrun & _ & Htotal & Hitem & Hitems & _);
    [simpl; lia |].
  exists self', db'. split; [exact Hrun |]. split; [exact Htotal |].
  rewrite Hitems, Hitem. reflexivity.
Defined.

(** What the field checks of a transaction request hand on: the item is
    a stored one, under the key of the request, and the quantity is one
    the column can hold; the store is only read. *)
Lemma TransactionSerializer_fields_run (d : TransactionData) (db : DB) :
  (exists e, TransactionSerializer_fields d db = (Raise e, db))
  \/ (exists k it qs,
        TransactionSerializer_fields d db
        = (Ok (mkTransactionValidated (mkInstance k it) qs), db)
        /\ d_item d = Some k
        /\ d_quantity_sold d = Some qs
        /\ inventory_items db !! k = Some it
        /\ 0 <= qs <= PositiveIntegerField_max_value).
Proof.
  destruct d as [[k|] [qs|]];
    unfold TransactionSerializer_fields, bind, gets, run_field;
    cbn [d_item d_quantity_sold]; unfold PrimaryKeyRelatedField;
    try (destruct (inventory_items db !! k) as [it|] eqn:Hk);
    try (destruct (PositiveIntegerField qs) as [qs'|dq] eqn:Hqs);
    try (left; eexists; reflexivity).
  apply PositiveIntegerField_accepts in Hqs as [-> Hqs].
  right. exists k, it, qs. auto.
Qed.

Lemma stock_nonnegative_insert (db : DB) (k : pk) (it : InventoryItem) :
  stock_nonnegative db ->
  0 <= quantity it ->
  forall f,
    stock_nonnegative
      (set_transactions f (set_inventory_items <[k := it]> db)).
Proof.
  intros Hdb Hq f k' it'. simpl.
  destruct (decide (k = k')) as [-> | Hne].
  - rewrite lookup_insert_eq. intros [= <-]. exact Hq.
  - rewrite lookup_insert_ne by exact Hne. apply Hdb.
Qed.

(** X2.  The full account of [POST /api/transactions/] for a signed-in caller
    and a stored item, by how the quantity sold stands to the stock: twice
    the quantity within the stock, the sale is recorded and the stock drops
    by twice the quantity; the quantity within the stock but not twice it,
    [ValueError] is raised with the stock already down by the quantity and
    no transaction recorded.  A quantity the column cannot hold is refused
    by the field and nothing is written. *)
Theorem transaction_create_outcomes (u : CustomUser) (db : DB) (k : pk)
    (it : InventoryItem) (qs : Z) :
  inventory_items db !! k = Some it ->
  0 <= qs <= quantity it ->
  TransactionViewSet_create (Authenticated u)
    (mkTransactionData (Some k) (Some qs)) db
  = if PositiveIntegerField_max_value <? qs then
      (Raise (ValidationError
                [("quantity_sold",
                  "Ensure this value is less than or equal to "
                    +:+ pretty PositiveIntegerField_max_value +:+ ".")]),
       db)
    else if quantity it - qs <? qs then
      (Raise (ValueError "Not enough stock available for this transaction."),
       set_inventory_items
         <[k := mkInventoryItem (name it) (quantity it - qs) (price it)]> db)
    else
      (Ok (mkTransaction
             (mkInstance k
                (mkInventoryItem (name it) (quantity it - qs - qs)
                                 (price it)))
             qs (qs * price it)),
       set_transactions
         <[new_pk (transactions db) :=
             mkTransactionRow k qs (qs * price it)]>
         (set_inventory_items
            <[k := mkInventoryItem (name it) (quantity it - qs - qs)
                                   (price it)]>
            (set_inventory_items
               <[k := mkInventoryItem (name it) (quantity it - qs)
                                      (price it)]> db))).
Proof.
  intros Hk [Hqs Hle].
  unfold TransactionViewSet_create, bind at 1 2. simpl.
  destruct (Z.ltb_spec PositiveIntegerField_max_value qs) as [Hgt | Hmax].
  - rewrite (field_checks_of_transaction_above db k it qs Hk Hgt).
    reflexivity.
  - rewrite (field_checks_of_transaction db k it qs Hk) by lia.
    unfold bind at 1, lift, TransactionSerializer_validate. simpl.
    destruct (Z.ltb_spec (quantity it) qs); [lia |].
    rewrite TransactionSerializer_create_run by (simpl; lia).
    reflexivity.
Qed.

Lemma transaction_create_outcomes_witness :
  TransactionViewSet_create (Authenticated (mkUser "amina" "staff" false))
    (mkTransactionData (Some 1%positive) (Some 6)) bar_db
  = (Raise (ValueError "Not enough stock available for this transaction."),
     set_inventory_items
       <[1%positive := mkInventoryItem "Soda" 4 500]> bar_db).
Proof.
  apply (transaction_create_outcomes (mkUser "amina" "staff" false) bar_db
           1%positive (mkInventoryItem "Soda" 10 500) 6);
    [reflexivity | simpl; lia].
Defined.

(** X3.  Whatever the request and whoever sends it, [POST /api/transactions/]
    leaves no stored item with a negative quantity if there was none. *)
Theorem transaction_create_keeps_stock_nonnegative (user : RequestUser)
    (d : TransactionData) (db : DB) :
  stock_nonnegative db ->
  stock_nonnegative (snd (TransactionViewSet_create user d db)).
Proof.
  intros Hdb. unfold TransactionViewSet_create, bind at 1, lift.
  destruct (check_permissions [IsAuthenticated] user); simpl;
    [| exact Hdb].
  unfold bind at 1.
  destruct (TransactionSerializer_fields_run d db)
    as [[e ->] | (k & it & qs & -> & _ & _ & Hk & Hqs)]; [exact Hdb |].
  unfold bind at 1, lift, TransactionSerializer_validate. simpl.
  destruct (Z.ltb_spec (quantity it) qs); simpl; [exact Hdb |].
  rewrite TransactionSerializer_create_run by (simpl; lia). simpl.
  destruct (Z.ltb_spec (quantity it - qs) qs); simpl.
  - apply (stock_nonnegative_insert db k
             (mkInventoryItem (name it) (quantity it - qs) (price it))
             Hdb ltac:(simpl; lia) (fun t => t)).
  - intros k' it'. simpl. rewrite insert_insert_eq.
    destruct (decide (k = k')) as [-> | Hne].
    + rewrite lookup_insert_eq. intros [= <-]. simpl. lia.
    + rewrite lookup_insert_ne by exact Hne. apply Hdb.
Qed.

Lemma bar_db_stock_nonnegative : stock_nonnegative bar_db.
Proof.
  intros k it. unfold bar_db, empty_db. simpl.
  destruct (decide (1%positive = k)) as [<- | Hne].
  - rewrite lookup_insert_eq. intros [= <-]. simpl. lia.
  - rewrite lookup_insert_ne by exact Hne. rewrite lookup_empty.
    discriminate.
Qed.

Lemma transaction_create_keeps_stock_nonnegative_witness :
  exists it,
    inventory_items
      (snd (TransactionViewSet_create staff_user
              (mkTransactionData (Some 1%positive) (Some 6)) bar_db))
      !! 1%positive = Some it
    /\ 0 <= quantity it.
Proof.
  exists (mkInventoryItem "Soda" 4 500). split; [reflexivity |].
  apply (transaction_create_keeps_stock_nonnegative staff_user
           (mkTransactionData (Some 1%positive) (Some 6)) bar_db
           bar_db_stock_nonnegative 1%positive).
  reflexivity.
Defined.

(** ** Stays *)


(** X5.  On a stored reservation that is ['confirmed'], [check_in] followed by
    [check_out] answers 200 twice and leaves it ['checked_out']; asked in
    the other order, [check_out] answers 400 and changes nothing; and a
    second [check_in] after the first answers 400 and changes nothing. *)
Theorem check_in_then_check_out (db : DB) (k : pk) (r : Reservation) :
  reservations db !! k = Some r ->
  status r = "confirmed" ->
  exists db1 db2,
    ReservationViewSet_check_in k db
    = (Ok (mkResponse [("status", "checked in")] HTTP_200_OK), db1)
    /\ ReservationViewSet_check_out k db1
       = (Ok (mkResponse [("status", "checked out")] HTTP_200_OK), db2)
    /\ reservations db2 !! k
       = Some (mkReservation (guest r) (room r) (check_in_date r)
                             (check_out_date r) "checked_out")
    /\ ReservationViewSet_check_in k db1
       = (Ok (mkResponse
                [("error", "Reservation must be confirmed before check-in")]
                HTTP_400_BAD_REQUEST),
          db1)
    /\ ReservationViewSet_check_out k db
       = (Ok (mkResponse
                [("error", "Reservation must be checked in before check-out")]
                HTTP_400_BAD_REQUEST),
          db).
Proof.
  intros Hk Hst.
  set (r1 := mkReservation (guest r) (room r) (check_in_date r)
                           (check_out_date r) "checked_in").
  assert (Hk1 : reservations (set_reservations <[k := r1]> db) !! k = Some r1)
    by (simpl; apply lookup_insert_eq).
  exists (set_reservations <[k := r1]> db).
  rewrite (check_in_run db k r Hk), (check_out_run db k r Hk).
  rewrite (check_in_run _ k r1 Hk1), (check_out_run _ k r1 Hk1).
  rewrite Hst. simpl. eexists. split; [reflexivity |].
  split; [reflexivity |]. simpl. rewrite lookup_insert_eq. auto.
Qed.

Lemma check_in_then_check_out_witness :
  exists db1 db2,
    ReservationViewSet_check_in 1%positive (lodge_db "confirmed")
    = (Ok (mkResponse [("status", "checked in")] HTTP_200_OK), db1)
    /\ ReservationViewSet_check_out 1%positive db1
       = (Ok (mkResponse [("status", "checked out")] HTTP_200_OK), db2)
    /\ reservations db2 !! 1%positive
       = Some (mkReservation 7%positive 1%positive 100 102 "checked_out").
Proof.
  destruct (check_in_then_check_out (lodge_db "confirmed") 1%positive
              (mkReservation 7%positive 1%positive 100 102 "confirmed")
              eq_refl eq_refl)
    as (db1 & db2 & H1 & H2 & H3 & _).
  exists db1, db2. auto.
Defined.

(** ** Dates of a reservation *)

(** X6.  On a request that carries both dates, [validate] accepts exactly when
    the check-in date is today or later and the check-out date is after
    it, and what it returns is the data it was given. *)
Theorem ReservationSerializer_validate_accepts_iff (today ci co : date)
    (d : ReservationData) :
  d_check_in_date d = Some ci ->
  d_check_out_date d = Some co ->
  (ReservationSerializer_validate today d = Ok d <-> today <= ci < co)
  /\ (forall d', ReservationSerializer_validate today d = Ok d' -> d' = d).
Proof.
  intros Hci Hco. split.
  - rewrite (ReservationSerializer_validate_dates today ci co d Hci Hco).
    destruct (Z.ltb_spec ci today); [split; [discriminate | lia] |].
    destruct (Z.leb_spec co ci); [split; [discriminate | lia] |].
    split; [lia | reflexivity].
  - intros d'. apply ReservationSerializer_validate_ok.
Qed.

Lemma ReservationSerializer_validate_accepts_iff_witness :
  ReservationSerializer_validate 100
    (mkReservationData (Some 1%positive) (Some 100) (Some 102) None)
  = Ok (mkReservationData (Some 1%positive) (Some 100) (Some 102) None).
Proof.
  apply (ReservationSerializer_validate_accepts_iff 100 100 102
           (mkReservationData (Some 1%positive) (Some 100) (Some 102) None)
           eq_refl eq_refl).
  lia.
Defined.

(** X10.  [validate] reads both dates with [data.get]: on data without a
    check-in date it raises [TypeError], the comparison of [None] with
    today; on data with a check-in date of today or later and no check-out
    date it raises [TypeError], the comparison of [None] with the check-in
    date; a check-in date in the past is reported whether or not there is
    a check-out date. *)
Theorem ReservationSerializer_validate_missing_date (today : date)
    (d : ReservationData) :
  (d_check_in_date d = None ->
   ReservationSerializer_validate today d
   = Raise (TypeError
              ("'<' not supported between instances of "
                 +:+ "'NoneType' and 'datetime.date'")))
  /\ (forall ci,
        d_check_in_date d = Some ci ->
        today <= ci ->
        d_check_out_date d = None ->
        ReservationSerializer_validate today d
        = Raise (TypeError
                   ("'<=' not supported between instances of "
                      +:+ "'NoneType' and 'datetime.date'")))
  /\ (forall ci,
        d_check_in_date d = Some ci ->
        ci < today ->
        ReservationSerializer_validate today d
        = Raise (ValidationError
                   [(non_field_errors,
                     "Check-in date cannot be in the past.")])).
Proof.
  unfold ReservationSerializer_validate, date_lt, date_le.
  split; [| split].
  - intros ->. reflexivity.
  - intros ci -> Hci ->.
    destruct (Z.ltb_spec ci today); [lia | reflexivity].
  - intros ci -> Hci.
    destruct (Z.ltb_spec ci today); [reflexivity | lia].
Qed.

(** X7.  [Reservation.clean] and [ReservationSerializer.validate] state one
    rule: on the same two dates one accepts exactly when the other does,
    and one raises with a message exactly when the other reports that
    message. *)
Theorem clean_agrees_with_validate (today : date) (self : Reservation)
    (d : ReservationData) :
  d_check_in_date d = Some (check_in_date self) ->
  d_check_out_date d = Some (check_out_date self) ->
  (Reservation_clean today self = Ok tt
   <-> ReservationSerializer_validate today d = Ok d)
  /\ (forall msg,
        Reservation_clean today self = Raise (ValueError msg)
        <-> ReservationSerializer_validate today d
            = Raise (ValidationError [(non_field_errors, msg)])).
Proof.
  intros Hci Hco.
  rewrite (ReservationSerializer_validate_dates today _ _ d Hci Hco).
  unfold Reservation_clean.
  destruct (check_in_date self <? today).
  - split; [split; discriminate |].
    intros msg. split; intros [= <-]; reflexivity.
  - destruct (check_out_date self <=? check_in_date self).
    + split; [split; discriminate |].
      intros msg. split; intros [= <-]; reflexivity.
    + split; [split; reflexivity |].
      intros msg. split; discriminate.
Qed.

Lemma clean_agrees_with_validate_witness :
  Reservation_clean 100 (mkReservation 7%positive 1%positive 100 100 "pending")
  = Raise (ValueError "Check-out date must be after check-in date.")
  <-> ReservationSerializer_validate 100
        (mkReservationData None (Some 100) (Some 100) None)
      = Raise (ValidationError
                 [(non_field_errors,
                   "Check-out date must be after check-in date.")]).
Proof.
  apply (clean_agrees_with_validate 100
           (mkReservation 7%positive 1%positive 100 100 "pending")
           (mkReservationData None (Some 100) (Some 100) None)
           eq_refl eq_refl).
Defined.

(** X8.  A reservation that passes [clean] today is active today exactly when
    it checks in today; it is active on its check-in day and on its
    check-out day, and on no day before today. *)
Theorem Reservation_is_active_after_clean (today : date)
    (self : Reservation) :
  Reservation_clean today self = Ok tt ->
  (Reservation_is_active today self = true <-> check_in_date self = today)
  /\ Reservation_is_active (check_in_date self) self = true
  /\ Reservation_is_active (check_out_date self) self = true
  /\ (forall day, Reservation_is_active day self = true -> today <= day).
Proof.
  unfold Reservation_is_active, Reservation_clean.
  destruct (Z.ltb_spec (check_in_date self) today) as [|Hci];
    [discriminate |].
  destruct (Z.leb_spec (check_out_date self) (check_in_date self)) as [|Hco];
    [discriminate |].
  intros _. rewrite !andb_true_iff, !Z.leb_le.
  repeat split; lia.
Qed.

Lemma Reservation_is_active_after_clean_witness :
  Reservation_is_active 100
    (mkReservation 7%positive 1%positive 100 102 "confirmed") = true
  <-> 100 = 100.
Proof.
  apply (Reservation_is_active_after_clean 100
           (mkReservation 7%positive 1%positive 100 102 "confirmed")).
  reflexivity.
Defined.

(** ** Role predicates *)

(** X11.  On signed-in users: whoever [IsAdmin] admits, [IsStaff] admits;
    whoever [IsGuest] admits, the other two refuse; and a user whose role
    is ['manager'], a declared choice, is refused by all three. *)
Theorem role_predicates_order (u : CustomUser) :
  (IsAdmin_has_permission (Authenticated u) = Ok true ->
   IsStaff_has_permission (Authenticated u) = Ok true)
  /\ (IsGuest_has_permission (Authenticated u) = Ok true ->
      IsAdmin_has_permission (Authenticated u) = Ok false
      /\ IsStaff_has_permission (Authenticated u) = Ok false)
  /\ (role u = "manager" ->
      In (role u) ROLE_CHOICES
      /\ IsAdmin_has_permission (Authenticated u) = Ok false
      /\ IsStaff_has_permission (Authenticated u) = Ok false
      /\ IsGuest_has_permission (Authenticated u) = Ok false).
Proof.
  unfold IsAdmin_has_permission, IsStaff_has_permission,
    IsGuest_has_permission. simpl.
  split; [| split].
  - intros [= E]. rewrite E. reflexivity.
  - intros [= E]. apply eqb_string_true in E. rewrite E. auto.
  - intros ->. simpl. auto.
Qed.

(** X12.  The role predicates read [request.user.role], which the anonymous user
    does not have: alone, or placed before [IsAuthenticated], each raises
    [AttributeError] on an anonymous request; placed after
    [IsAuthenticated] it is never reached and the request is refused as
    not authenticated. *)
Theorem role_predicates_need_IsAuthenticated_first (p : Permission) :
  check_permissions [IsAuthenticated; p] AnonymousUser
  = Raise NotAuthenticated
  /\ (In p [IsAdmin; IsStaff; IsGuest] ->
      exists msg,
        check_permissions [p] AnonymousUser = Raise (AttributeError msg)
        /\ check_permissions [p; IsAuthenticated] AnonymousUser
           = Raise (AttributeError msg)).
Proof.
  split; [reflexivity |].
  intros [<- | [<- | [<- | []]]]; eexists; split; reflexivity.
Qed.

(** X13.  The name [IsAdmin] in [views.py] is the class defined there, not the
    one imported: the admin gate of the view sets of [views.py] admits
    exactly the signed-in users with [is_staff], whatever their role, and
    that of the view sets of [api.py] exactly the signed-in users with
    role ['admin'], whatever [is_staff]; neither gate raises. *)
Theorem admin_gates (user : RequestUser) :
  (views_admin_gate user = Ok tt
   <-> exists u, user = Authenticated u /\ is_staff u = true)
  /\ (api_admin_gate user = Ok tt
      <-> exists u, user = Authenticated u /\ role u = "admin")
  /\ (views_admin_gate user = Ok tt
      \/ views_admin_gate user = Raise NotAuthenticated
      \/ views_admin_gate user = Raise PermissionDenied)
  /\ (api_admin_gate user = Ok tt
      \/ api_admin_gate user = Raise NotAuthenticated
      \/ api_admin_gate user = Raise PermissionDenied).
Proof.
  unfold views_admin_gate, api_admin_gate.
  change (module_namespace views_py_IsAdmin !! "IsAdmin")
    with (Some views_IsAdmin_has_permission).
  destruct user as [|u]; simpl.
  - split; [split; [discriminate | intros (u & [=] & _)] |].
    split; [split; [discriminate | intros (u & [=] & _)] |]. auto.
  - unfold views_IsAdmin_has_permission, IsAdmin_has_permission. simpl.
    split; [| split; [| split]].
    + destruct (is_staff u) eqn:Es; split.
      * intros _. exists u. auto.
      * reflexivity.
      * discriminate.
      * intros (u' & [= <-] & H). congruence.
    + destruct (String.eqb (role u) "admin") eqn:Er; split.
      * intros _. exists u. apply eqb_string_true in Er. auto.
      * reflexivity.
      * discriminate.
      * intros (u' & [= <-] & H). apply eqb_string_false in Er.
        contradiction.
    + destruct (is_staff u); auto.
    + destruct (String.eqb (role u) "admin"); auto.
Qed.

(** ** Payments, further *)

(** The payment rows after [PaymentSerializer.create] has stored a
    payment. *)
Lemma PaymentSerializer_create_rows (vd : PaymentData) (db : DB) :
  d_user vd = None ->
  is_Some (reservations db !! d_reservation vd) ->
  (forall k p, payments db !! k = Some p ->
               reservation p <> d_reservation vd) ->
  payments db !! new_pk (payments db) = None
  /\ payments (snd (PaymentSerializer_create vd db))
     = <[new_pk (payments db) :=
           mkPayment (d_reservation vd) (d_amount vd) (d_payment_method vd)
                     (status_of_method (d_payment_method vd))]>
         (payments db).
Proof.
  intros Huser Hr Hnone. split; [apply new_pk_fresh |].
  rewrite (PaymentSerializer_create_run vd db Huser Hr Hnone). reflexivity.
Qed.

(** X14.  On validated attributes that carry no other keyword, for a
    stored reservation that has no payment yet, [PaymentSerializer.create]
    adds exactly one row: the payments table afterwards is the one before
    with the new payment under a key that was free, the payment carries
    reservation, amount and method of the validated data, and no other
    table changes. *)
Theorem PaymentSerializer_create_adds_one_row (vd : PaymentData) (db : DB) :
  d_user vd = None ->
  is_Some (reservations db !! d_reservation vd) ->
  (forall k p, payments db !! k = Some p ->
               reservation p <> d_reservation vd) ->
  exists p db',
    PaymentSerializer_create vd db = (Ok p, db')
    /\ attrs p
       = mkPayment (d_reservation vd) (d_amount vd) (d_payment_method vd)
                   (status_of_method (d_payment_method vd))
    /\ payments db !! id p = None
    /\ payments db' = <[id p := attrs p]> (payments db)
    /\ rooms db' = rooms db
    /\ reservations db' = reservations db
    /\ inventory_items db' = inventory_items db
    /\ transactions db' = transactions db.
Proof.
  intros Huser Hr Hnone.
  rewrite (PaymentSerializer_create_run vd db Huser Hr Hnone).
  eexists _, _. split; [reflexivity |]. simpl.
  split; [reflexivity |]. split; [apply new_pk_fresh |].
  repeat split.
Qed.

Lemma PaymentSerializer_create_adds_one_row_witness :
  exists p db',
    PaymentSerializer_create
      (mkPaymentData 1%positive 8000 "cash" None None) (lodge_db "confirmed")
    = (Ok p, db')
    /\ attrs p = mkPayment 1%positive 8000 "cash" "completed"
    /\ payments db' = {[id p := attrs p]}.
Proof.
  destruct (PaymentSerializer_create_adds_one_row
              (mkPaymentData 1%positive 8000 "cash" None None)
              (lodge_db "confirmed"))
    as (p & db' & Hrun & Hattrs & _ & Hrows & _).
  - reflexivity.
  - eexists. reflexivity.
  - intros k p Hk. simpl in Hk. rewrite lookup_empty in Hk. discriminate.
  - exists p, db'. split; [exact Hrun |]. split; [exact Hattrs |].
    rewrite Hrows. reflexivity.
Defined.

(** X15.  Whatever the method, a payment that is created (on validated
    attributes that carry no other keyword, for a stored reservation that
    has no payment yet) and then marked as paid is ['completed'], in the
    object returned and in the store: for ['cash'] and ['mobile'] the
    second step changes nothing, for any other method it is what completes
    the payment. *)
Theorem create_then_mark_as_paid (vd : PaymentData) (db : DB) :
  d_user vd = None ->
  is_Some (reservations db !! d_reservation vd) ->
  (forall k p, payments db !! k = Some p ->
               reservation p <> d_reservation vd) ->
  exists p db1 p' db2,
    PaymentSerializer_create vd db = (Ok p, db1)
    /\ Payment_mark_as_paid p db1 = (Ok p', db2)
    /\ id p' = id p
    /\ payment_status (attrs p') = "completed"
    /\ payments db2 !! id p = Some (attrs p')
    /\ (payment_status (attrs p) = "completed" -> p' = p /\ db2 = db1).
Proof.
  intros Huser Hr Hnone.
  rewrite (PaymentSerializer_create_run vd db Huser Hr Hnone).
  unfold Payment_mark_as_paid, status_of_method, Payment_save, bind, modify,
    ret.
  destruct (String.eqb (d_payment_method vd) "cash"
            || String.eqb (d_payment_method vd) "mobile");
    simpl; eexists _, _, _, _;
    (split; [reflexivity |]); (split; [reflexivity |]); simpl;
    rewrite ?lookup_insert_eq; repeat split; try discriminate.
Qed.

Lemma create_then_mark_as_paid_witness :
  exists p db1 p' db2,
    PaymentSerializer_create
      (mkPaymentData 1%positive 8000 "card" None None) (lodge_db "confirmed")
    = (Ok p, db1)
    /\ Payment_mark_as_paid p db1 = (Ok p', db2)
    /\ payment_status (attrs p') = "completed"
    /\ payments db2 !! id p = Some (attrs p').
Proof.
  destruct (create_then_mark_as_paid
              (mkPaymentData 1%positive 8000 "card" None None)
              (lodge_db "confirmed"))
    as (p & db1 & p' & db2 & Hrun & Hpaid & _ & Hstatus & Hstored & _).
  - reflexivity.
  - eexists. reflexivity.
  - intros k p Hk. simpl in Hk. rewrite lookup_empty in Hk. discriminate.
  - exists p, db1, p', db2. auto.
Defined.

(** X25.  [PaymentViewSet.perform_create] passes the keyword [user] on to
    [PaymentSerializer.create], and [Payment] has no such attribute:
    whoever the user, whatever the validated attributes and the store, it
    raises [TypeError] and writes nothing, also where
    [PaymentSerializer.create] on the same attributes stores the
    payment. *)
Theorem PaymentViewSet_perform_create_raises (user : CustomUser)
    (validated_data : PaymentData) (db : DB) :
  PaymentViewSet_perform_create user validated_data db
  = (Raise (TypeError "Payment() got unexpected keyword arguments: 'user'"),
     db)
  /\ (d_user validated_data = None ->
      is_Some (reservations db !! d_reservation validated_data) ->
      (forall k p, payments db !! k = Some p ->
                   reservation p <> d_reservation validated_data) ->
      exists p db',
        PaymentSerializer_create validated_data db = (Ok p, db')
        /\ payments db' !! id p = Some (attrs p)).
Proof.
  split; [reflexivity |]. intros Huser Hr Hnone.
  rewrite (PaymentSerializer_create_run validated_data db Huser Hr Hnone).
  eexists _, _. split; [reflexivity |]. simpl. apply lookup_insert_eq.
Qed.

(** X16.  [PaymentSerializer.validate_amount] and [Payment.clean] draw one line:
    each accepts an amount exactly when it is positive, and the serializer
    hands an accepted amount on unchanged. *)
Theorem validate_amount_agrees_with_clean (self : Payment) :
  (Payment_clean self = Ok tt <-> 0 < amount self)
  /\ (PaymentSerializer_validate_amount (amount self) = Valid (amount self)
      <-> 0 < amount self)
  /\ (forall v,
        PaymentSerializer_validate_amount (amount self) = Valid v ->
        v = amount self /\ Payment_clean self = Ok tt).
Proof.
  unfold Payment_clean, PaymentSerializer_validate_amount.
  destruct (Z.leb_spec (amount self) 0).
  - repeat split; try discriminate; lia.
  - repeat split; try lia; congruence.
Qed.

(** ** Reports *)

Lemma objects_insert_fresh {A} (table : gmap pk A) (k : pk) (x : A) :
  table !! k = None ->
  objects (<[k := x]> table) ≡ₚ x :: objects table.
Proof.
  intros Hk. unfold objects.
  rewrite (map_to_list_insert table k x Hk). reflexivity.
Qed.

Lemma objects_insert_stored {A} (table : gmap pk A) (k : pk) (x y : A) :
  table !! k = Some y ->
  objects table ≡ₚ y :: objects (delete k table)
  /\ objects (<[k := x]> table) ≡ₚ x :: objects (delete k table).
Proof.
  intros Hk. split.
  - unfold objects. rewrite <- (map_to_list_delete table k y Hk).
    reflexivity.
  - rewrite <- (insert_delete_eq table k x).
    apply objects_insert_fresh. apply lookup_delete_eq.
Qed.

Lemma foldr_add_perm (l l' : list Z) :
  l ≡ₚ l' -> foldr Z.add 0 l = foldr Z.add 0 l'.
Proof.
  induction 1; simpl; lia.
Qed.

Lemma aggregate_Sum_or_zero (values : list Z) :
  default 0 (aggregate_Sum values) = foldr Z.add 0 values.
Proof. destruct values; reflexivity. Qed.

Lemma count_perm {A} (l l' : list A) : l ≡ₚ l' -> count l = count l'.
Proof. intros H. unfold count. rewrite H. reflexivity. Qed.

(** The revenue the report shows, as a number. *)
Lemma revenue_report_total (db : DB) :
  ReportViewSet_revenue_report db
  = [("total_revenue",
      foldr Z.add 0
        (amount <$> filter (fun p => payment_status p = "completed")
                           (objects (payments db))))].
Proof.
  unfold ReportViewSet_revenue_report.
  rewrite aggregate_Sum_or_zero. reflexivity.
Qed.

(** X17.  Creating a payment (on validated attributes that carry no other
    keyword, for a stored reservation that has no payment yet) raises the
    revenue of the report by its amount when the method is ['cash'] or
    ['mobile'], and leaves it as it was for any other method; with no
    payment in the store the report shows zero. *)
Theorem revenue_report_after_create (vd : PaymentData) (db : DB) :
  d_user vd = None ->
  is_Some (reservations db !! d_reservation vd) ->
  (forall k p, payments db !! k = Some p ->
               reservation p <> d_reservation vd) ->
  (payments db = ∅ ->
   ReportViewSet_revenue_report db = [("total_revenue", 0)])
  /\ exists total,
       ReportViewSet_revenue_report db = [("total_revenue", total)]
       /\ ReportViewSet_revenue_report
            (snd (PaymentSerializer_create vd db))
          = [("total_revenue",
              if String.eqb (d_payment_method vd) "cash"
                 || String.eqb (d_payment_method vd) "mobile"
              then d_amount vd + total else total)].
Proof.
  intros Huser Hr Hnone. split.
  { intros Hempty. unfold ReportViewSet_revenue_report, objects.
    rewrite Hempty, map_to_list_empty. reflexivity. }
  eexists. split; [apply revenue_report_total |].
  destruct (PaymentSerializer_create_rows vd db Huser Hr Hnone)
    as [Hfresh Hpay].
  rewrite revenue_report_total. f_equal. f_equal. rewrite Hpay.
  erewrite foldr_add_perm;
    [| rewrite (objects_insert_fresh (payments db) _ _ Hfresh);
       reflexivity].
  rewrite filter_cons. unfold status_of_method. simpl.
  destruct (String.eqb (d_payment_method vd) "cash"
            || String.eqb (d_payment_method vd) "mobile");
    simpl; reflexivity.
Qed.

Lemma revenue_report_after_create_witness :
  ReportViewSet_revenue_report (lodge_db "confirmed")
  = [("total_revenue", 0)]
  /\ ReportViewSet_revenue_report
       (snd (PaymentSerializer_create
               (mkPaymentData 1%positive 8000 "cash" None None)
               (lodge_db "confirmed")))
     = [("total_revenue", 8000)].
Proof.
  destruct (revenue_report_after_create
              (mkPaymentData 1%positive 8000 "cash" None None)
              (lodge_db "confirmed"))
    as (Hzero & total & Hbefore & Hafter).
  - reflexivity.
  - eexists. reflexivity.
  - intros k p Hk. simpl in Hk. rewrite lookup_empty in Hk. discriminate.
  - split; [apply Hzero; reflexivity |]. rewrite Hafter.
    rewrite (Hzero eq_refl) in Hbefore. injection Hbefore as <-.
    reflexivity.
Defined.

(** X18.  Marking a stored payment as paid raises the revenue of the report by
    its amount when it was ['pending'], and leaves the report as it was
    otherwise. *)
Theorem revenue_report_after_mark_as_paid (k : pk) (p : Payment) (db : DB) :
  payments db !! k = Some p ->
  exists total,
    ReportViewSet_revenue_report db = [("total_revenue", total)]
    /\ ReportViewSet_revenue_report
         (snd (Payment_mark_as_paid (mkInstance k p) db))
       = [("total_revenue",
           if String.eqb (payment_status p) "pending"
           then amount p + total else total)].
Proof.
  intros Hk. eexists. split; [apply revenue_report_total |].
  unfold Payment_mark_as_paid. simpl.
  destruct (String.eqb (payment_status p) "pending") eqn:E;
    [| apply revenue_report_total].
  apply eqb_string_true in E. run. rewrite revenue_report_total. simpl.
  f_equal. f_equal.
  destruct (objects_insert_stored (payments db) k
              (mkPayment (reservation p) (amount p) (payment_method p)
                         "completed") p Hk) as [Hold Hnew].
  erewrite foldr_add_perm; [| rewrite Hnew; reflexivity].
  symmetry.
  erewrite (foldr_add_perm (amount <$> filter _ (objects (payments db))));
    [| rewrite Hold; reflexivity].
  rewrite !filter_cons. simpl. rewrite E. simpl. reflexivity.
Qed.

Lemma revenue_report_after_mark_as_paid_witness :
  exists total,
    ReportViewSet_revenue_report
      (set_payments <[1%positive := mkPayment 1%positive 8000 "card" "pending"]>
                    empty_db)
    = [("total_revenue", total)]
    /\ ReportViewSet_revenue_report
         (snd (Payment_mark_as_paid
                 (mkInstance 1%positive
                    (mkPayment 1%positive 8000 "card" "pending"))
                 (set_payments
                    <[1%positive := mkPayment 1%positive 8000 "card" "pending"]>
                    empty_db)))
       = [("total_revenue", 8000 + total)].
Proof.
  apply (revenue_report_after_mark_as_paid 1%positive
           (mkPayment 1%positive 8000 "card" "pending")
           (set_payments
              <[1%positive := mkPayment 1%positive 8000 "card" "pending"]>
              empty_db)).
  reflexivity.
Defined.

(** X19.  A sale of a quantity that is not negative and that the stock
    covers, saved by [Transaction.save], adds one to the transactions of
    the report and quantity times price to its sales. *)
Theorem transaction_report_after_save (self : Transaction) (db : DB) :
  0 <= quantity_sold self <= quantity (attrs (item self)) ->
  exists n sales,
    ReportViewSet_transaction_report db
    = [("total_transactions", n); ("total_sales", sales)]
    /\ ReportViewSet_transaction_report (snd (Transaction_save self db))
       = [("total_transactions", n + 1);
          ("total_sales",
           quantity_sold self * price (attrs (item self)) + sales)].
Proof.
  intros Hle.
  destruct (Transaction_save_rows self db Hle) as [Hfresh Htx].
  unfold ReportViewSet_transaction_report.
  rewrite !aggregate_Sum_or_zero. eexists _, _. split; [reflexivity |].
  rewrite Htx.
  pose proof (objects_insert_fresh (transactions db)
                (new_pk (transactions db))
                (mkTransactionRow (id (item self)) (quantity_sold self)
                   (quantity_sold self * price (attrs (item self))))
                Hfresh) as Hperm.
  f_equal; [| f_equal]; f_equal.
  - rewrite (count_perm _ _ Hperm). unfold count. simpl length. lia.
  - erewrite foldr_add_perm; [| rewrite Hperm; reflexivity]. reflexivity.
Qed.

Lemma transaction_report_after_save_witness :
  exists n sales,
    ReportViewSet_transaction_report bar_db
    = [("total_transactions", n); ("total_sales", sales)]
    /\ ReportViewSet_transaction_report
         (snd (Transaction_save
                 (mkTransaction
                    (mkInstance 1%positive (mkInventoryItem "Soda" 10 500))
                    3 0) bar_db))
       = [("total_transactions", n + 1); ("total_sales", 3 * 500 + sales)].
Proof.
  apply (transaction_report_after_save
           (mkTransaction
              (mkInstance 1%positive (mkInventoryItem "Soda" 10 500)) 3 0)
           bar_db).
  simpl. lia.
Defined.

(** X20.  The reservations the report calls active are never more than all of
    them; a [check_in] that answers 200 takes one off the active ones and
    leaves the total. *)
Theorem reservation_report_after_check_in (db : DB) (k : pk)
    (r : Reservation) :
  reservations db !! k = Some r ->
  status r = "confirmed" ->
  exists total active,
    ReportViewSet_reservation_report db
    = [("total_reservations", total); ("active_reservations", active)]
    /\ 0 < active <= total
    /\ ReportViewSet_reservation_report
         (snd (ReservationViewSet_check_in k db))
       = [("total_reservations", total);
          ("active_reservations", active - 1)].
Proof.
  intros Hk Hst. rewrite (check_in_run db k r Hk), Hst.
  set (P := fun r : Reservation => status r = "confirmed").
  set (r1 := mkReservation (guest r) (room r) (check_in_date r)
                           (check_out_date r) "checked_in").
  destruct (objects_insert_stored (reservations db) k r1 r Hk)
    as [Hold Hnew].
  set (others := objects (delete k (reservations db))) in *.
  assert (Htotal : count (objects (reservations db))
                   = count others + 1).
  { rewrite (count_perm _ _ Hold). unfold count. simpl length. lia. }
  assert (Htotal1 : count (objects (<[k := r1]> (reservations db)))
                    = count others + 1).
  { rewrite (count_perm _ _ Hnew). unfold count. simpl length. lia. }
  assert (Hactive : count (filter P (objects (reservations db)))
                    = count (filter P others) + 1).
  { rewrite (count_perm _ (filter P (r :: others)))
      by (rewrite Hold; reflexivity).
    rewrite filter_cons_True by exact Hst.
    unfold count. simpl length. lia. }
  assert (Hactive1 : count (filter P (objects (<[k := r1]> (reservations db))))
                     = count (filter P others)).
  { rewrite (count_perm _ (filter P (r1 :: others)))
      by (rewrite Hnew; reflexivity).
    rewrite filter_cons_False by (unfold P; simpl; discriminate).
    reflexivity. }
  assert (Hle : 0 <= count (filter P others) <= count others).
  { pose proof (length_filter P others). unfold count. lia. }
  unfold ReportViewSet_reservation_report.
  change (String.eqb "confirmed" "confirmed") with true.
  change (attrs (with_status (mkInstance k r) "checked_in")) with r1.
  cbn [snd reservations set_reservations].
  change (fun r : Reservation => status r = "confirmed") with P.
  rewrite Htotal, Htotal1, Hactive, Hactive1.
  eexists _, _. split; [reflexivity |]. split; [lia |].
  f_equal. f_equal. f_equal. lia.
Qed.

Lemma reservation_report_after_check_in_witness :
  exists total active,
    ReportViewSet_reservation_report (lodge_db "confirmed")
    = [("total_reservations", total); ("active_reservations", active)]
    /\ 0 < active <= total
    /\ ReportViewSet_reservation_report
         (snd (ReservationViewSet_check_in 1%positive (lodge_db "confirmed")))
       = [("total_reservations", total);
          ("active_reservations", active - 1)].
Proof.
  apply (reservation_report_after_check_in (lodge_db "confirmed") 1%positive
           (mkReservation 7%positive 1%positive 100 102 "confirmed"));
    reflexivity.
Defined.

(** ** Simplified login *)

Lemma first_with_password_found (table : gmap pk Account)
    (pw : option string) :
  is_Some (first_with_password table pw)
  <-> exists k a, table !! k = Some a /\ pw = Some (password a).
Proof.
  unfold first_with_password. destruct pw as [p|].
  - split.
    + intros [a Ha]. apply head_Some_elem_of in Ha.
      apply list_elem_of_filter in Ha as [Hp Hin].
      apply elem_of_objects in Hin as [k Hk].
      exists k, a. split; [exact Hk | congruence].
    + intros (k & a & Hk & [= ->]).
      destruct (filter (fun a0 => password a0 = password a) (objects table))
        as [|x l] eqn:E; [| exists x; reflexivity].
      exfalso.
      assert (Hin : a ∈ filter (fun a0 => password a0 = password a)
                         (objects table)).
      { apply list_elem_of_filter. split; [reflexivity |].
        apply elem_of_objects. exists k. exact Hk. }
      rewrite E in Hin. inversion Hin.
  - split; [intros [a [=]] | intros (k & a & _ & [=])].
Qed.

(** X21.  The simplified login of the bar (and of the restaurant) answers 200
    exactly when some account of that table has the password of the
    request, whichever account that is: no account name enters.  A request
    without password is answered 400, account type ['reservation'] raises
    on the missing column, and a missing or any other account type is
    answered 400 whatever the password. *)
Theorem simplified_login_by_password_alone
    (bar_accounts restaurant_accounts : gmap pk Account)
    (pw : option string) :
  (SimplifiedLoginView_post bar_accounts restaurant_accounts pw (Some "bar")
   = Answered (mkResponse [("message", "Bar login successful")] HTTP_200_OK)
   <-> exists k a, bar_accounts !! k = Some a /\ pw = Some (password a))
  /\ (SimplifiedLoginView_post bar_accounts restaurant_accounts pw
        (Some "restaurant")
      = Answered (mkResponse [("message", "Restaurant login successful")]
                             HTTP_200_OK)
      <-> exists k a,
            restaurant_accounts !! k = Some a /\ pw = Some (password a))
  /\ (forall t,
        In t ["bar"; "restaurant"] ->
        SimplifiedLoginView_post bar_accounts restaurant_accounts None
          (Some t)
        = Answered (mkResponse [("error", "Invalid password")]
                               HTTP_400_BAD_REQUEST))
  /\ (exists msg,
        SimplifiedLoginView_post bar_accounts restaurant_accounts pw
          (Some "reservation") = FieldError msg)
  /\ (forall account_type,
        (forall t, account_type = Some t ->
                   ~ In t ["bar"; "restaurant"; "reservation"]) ->
        SimplifiedLoginView_post bar_accounts restaurant_accounts pw
          account_type
        = Answered (mkResponse [("error", "Invalid account type")]
                               HTTP_400_BAD_REQUEST)).
Proof.
  split; [| split; [| split; [| split]]].
  - rewrite <- first_with_password_found.
    unfold SimplifiedLoginView_post. simpl.
    destruct (first_with_password bar_accounts pw) as [a|]; simpl.
    + split; [intros _; exists a; reflexivity | reflexivity].
    + split; [discriminate | intros [a [=]]].
  - rewrite <- first_with_password_found.
    unfold SimplifiedLoginView_post. simpl.
    destruct (first_with_password restaurant_accounts pw) as [a|]; simpl.
    + split; [intros _; exists a; reflexivity | reflexivity].
    + split; [discriminate | intros [a [=]]].
  - intros t [<- | [<- | []]]; reflexivity.
  - eexists. reflexivity.
  - intros [t|] Hother; [| reflexivity].
    specialize (Hother t eq_refl). unfold SimplifiedLoginView_post. simpl.
    destruct (String.eqb t "bar") eqn:E1;
      [apply eqb_string_true in E1; subst; exfalso; apply Hother;
       simpl; auto |].
    destruct (String.eqb t "restaurant") eqn:E2;
      [apply eqb_string_true in E2; subst; exfalso; apply Hother;
       simpl; auto |].
    destruct (String.eqb t "reservation") eqn:E3;
      [apply eqb_string_true in E3; subst; exfalso; apply Hother;
       simpl; auto |].
    reflexivity.
Qed.

(** ** Inventory, the first serializer class *)

(** X22.  Every full request that the first [InventoryItemSerializer] class
    accepts is handed on with its name trimmed and its quantity and price
    as they came, and describes an item that passes [InventoryItem.clean]:
    the name is not blank, the quantity is one the column can hold, and
    the price is not negative. *)
Theorem InventoryItemSerializer_65_accepts_only_clean
    (d d' : InventoryItemData) :
  InventoryItemSerializer_fields InventoryItemSerializer_65 false d = Ok d' ->
  exists n q p,
    d = mkInventoryItemData (Some n) (Some q) (Some p)
    /\ d' = mkInventoryItemData (Some (strip n)) (Some q) (Some p)
    /\ strip n <> ""
    /\ 0 <= q <= PositiveIntegerField_max_value
    /\ 0 <= p
    /\ InventoryItem_clean (mkInventoryItem (strip n) q p) = Ok tt.
Proof.
  destruct d as [[n|] [q|] [p|]];
    unfold InventoryItemSerializer_fields, run_field, with_hook;
    cbn [d_name d_quantity d_price validate_quantity validate_price
         InventoryItemSerializer_65];
    unfold InventoryItemSerializer_validate_quantity,
      InventoryItemSerializer_validate_price, DecimalField;
    try (destruct (CharField 255 n) as [n'|dn] eqn:Hn);
    try (destruct (PositiveIntegerField q) as [q'|dq] eqn:Hq;
         [apply PositiveIntegerField_accepts in Hq as [-> Hq];
          destruct (Z.ltb_spec q 0) |]);
    try (destruct (Z.abs p <? 10 ^ 10); [destruct (Z.ltb_spec p 0) |]);
    try discriminate.
  intros [= <-]. apply CharField_accepts in Hn as (-> & Hblank & _).
  exists n, q, p. unfold InventoryItem_clean. simpl.
  destruct (Z.ltb_spec q 0); [lia |].
  destruct (Z.ltb_spec p 0); [lia |].
  repeat split; try assumption; lia.
Qed.

Lemma InventoryItemSerializer_65_accepts_only_clean_witness :
  exists n q p,
    mkInventoryItemData (Some " Soda ") (Some 1) (Some 100)
    = mkInventoryItemData (Some n) (Some q) (Some p)
    /\ mkInventoryItemData (Some "Soda") (Some 1) (Some 100)
       = mkInventoryItemData (Some (strip n)) (Some q) (Some p)
    /\ strip n <> ""
    /\ 0 <= q <= PositiveIntegerField_max_value
    /\ 0 <= p
    /\ InventoryItem_clean (mkInventoryItem (strip n) q p) = Ok tt.
Proof.
  apply (InventoryItemSerializer_65_accepts_only_clean
           (mkInventoryItemData (Some " Soda ") (Some 1) (Some 100))).
  vm_compute. reflexivity.
Defined.

(** ** Requests that write nothing *)

(** An anonymous request to a reservation route or to the transaction
    route is refused as not authenticated before any handler runs: the
    store is left as it was. *)
Lemma anonymous_requests_write_nothing (today : date)
    (req : ReservationRequest) (d : TransactionData) (db : DB) :
  ReservationViewSet_dispatch today AnonymousUser req db
  = (Raise NotAuthenticated, db)
  /\ TransactionViewSet_create AnonymousUser d db
     = (Raise NotAuthenticated, db).
Proof. split; reflexivity. Qed.

(** X23.  A request that addresses a reservation that is not stored is answered
    with 404 by every detail route, and writes nothing. *)
Theorem reservation_routes_missing_key (today : date) (u : CustomUser)
    (k : pk) (d : ReservationData) (db : DB) :
  reservations db !! k = None ->
  ReservationViewSet_dispatch today (Authenticated u) (PUT_reservation k d) db
  = (Raise Http404, db)
  /\ ReservationViewSet_dispatch today (Authenticated u)
       (PATCH_reservation k d) db
     = (Raise Http404, db)
  /\ ReservationViewSet_dispatch today (Authenticated u) (POST_check_in k) db
     = (Raise Http404, db)
  /\ ReservationViewSet_dispatch today (Authenticated u) (POST_check_out k) db
     = (Raise Http404, db).
Proof.
  intros Hk. unfold ReservationViewSet_dispatch, bind at 1, lift. simpl.
  unfold ReservationViewSet_update, ReservationViewSet_check_in,
    ReservationViewSet_check_out, bind.
  rewrite (get_object_missing reservations k db Hk). auto.
Qed.

Lemma reservation_routes_missing_key_witness :
  ReservationViewSet_dispatch 100
    (Authenticated (mkUser "amina" "staff" false))
    (POST_check_in 2%positive) (lodge_db "confirmed")
  = (Raise Http404, lodge_db "confirmed").
Proof.
  apply (reservation_routes_missing_key 100 (mkUser "amina" "staff" false)
           2%positive (mkReservationData None None None None)
           (lodge_db "confirmed")).
  reflexivity.
Defined.

(** X24.  For a signed-in caller, whatever the request carries:
    [POST /api/reservations/] raises [ImproperlyConfigured] and stores
    nothing, and [PUT] and [PATCH] on a reservation raise
    [ImproperlyConfigured] when it is stored (404 when it is not) and
    write nothing: [Meta.fields] of the serializer names [guest_name],
    which [Reservation] does not have. *)
Theorem reservation_serializer_routes_raise (today : date) (u : CustomUser)
    (k : pk) (d : ReservationData) (db : DB) :
  ReservationViewSet_dispatch today (Authenticated u) (POST_reservations d) db
  = (Raise (not_valid_for_model "guest_name" "Reservation"),
     db)
  /\ ReservationViewSet_dispatch today (Authenticated u)
       (PUT_reservation k d) db
     = (Raise (match reservations db !! k with
               | Some _ => not_valid_for_model "guest_name" "Reservation"
               | None => Http404
               end),
        db)
  /\ ReservationViewSet_dispatch today (Authenticated u)
       (PATCH_reservation k d) db
     = (Raise (match reservations db !! k with
               | Some _ => not_valid_for_model "guest_name" "Reservation"
               | None => Http404
               end),
        db).
Proof.
  unfold ReservationViewSet_dispatch, bind at 1 3 5, lift. simpl.
  split; [reflexivity |].
  unfold bind. rewrite !ReservationViewSet_update_run.
  destruct (reservations db !! k); auto.
Qed.
